(** * postgres-mcp-server: the tool handlers of [src/index.js]

    A shallow embedding of the [PostgresMCPServer] class: the process-wide
    default configuration, the dispatcher installed by [setupToolHandlers],
    and the three handlers [handleQuery], [handleDescribeTable] and
    [handleListTables], together with the properties the specification
    states about them.

    The connection pool and the database behind it are external: a handler
    run is a computation over an instrumented pool (acquisitions, releases
    and the statements sent), and what the database answers is an input. *)

From Stdlib Require Import String Ascii List ZArith Lia Bool DecimalString.
From Stdlib Require DecimalPos.
Import ListNotations.
Local Open Scope string_scope.

(** ** The fragment of the JavaScript runtime the handlers use *)

Module JS.

(** A property of a JSON-decoded object, as destructuring sees it: the key
    is missing ([undefined]), holds JSON [null], or holds a value of the
    type the tool's input schema declares. *)
Inductive slot (A : Type) : Type :=
| Undefined
| Null
| Val (a : A).
Arguments Undefined {A}.
Arguments Null {A}.
Arguments Val {A} a.

(** ToBoolean on the value types that occur: the empty string and the
    number 0 are falsy. *)
Class Truthy (A : Type) := truthy : A -> bool.

#[global] Instance truthy_string : Truthy string :=
  fun s => negb (s =? "").
#[global] Instance truthy_number : Truthy Z :=
  fun n => negb (n =? 0)%Z.
#[global] Instance truthy_slot {A} `{Truthy A} : Truthy (slot A) :=
  fun x => match x with Val a => truthy a | _ => false end.
(** A nullable result column: SQL NULL arrives as [null]. *)
#[global] Instance truthy_option {A} `{Truthy A} : Truthy (option A) :=
  fun x => match x with Some a => truthy a | None => false end.

(** [x || d] with a default [d] of the declared type. *)
Definition or_else {A} `{Truthy A} (x : slot A) (d : A) : A :=
  match x with
  | Val a => if truthy a then a else d
  | _ => d
  end.

(** [x || null]: the value when truthy, [None] for [null]. *)
Definition or_null {A} `{Truthy A} (x : slot A) : option A :=
  match x with
  | Val a => if truthy a then Some a else None
  | _ => None
  end.

(** [x !== null]. *)
Definition not_null {A} (x : slot A) : bool :=
  match x with Null => false | _ => true end.

(** The result of [parseInt]: an integer or [NaN]. *)
Inductive number : Type :=
| NaN
| Int (n : Z).

(** [n || d] for a [parseInt] result: [NaN] and [0] are falsy. *)
Definition nan_or (n : number) (d : Z) : Z :=
  match n with
  | Int k => if truthy k then k else d
  | NaN => d
  end.

(** Texts are strings of 8-bit characters read as ASCII.  On ASCII text
    the functions below are the ECMAScript built-ins of the same name. *)

Definition isWhiteSpace (c : ascii) : bool :=
  let n := nat_of_ascii c in
  ((9 <=? n) && (n <=? 13) || (n =? 32))%nat.

Definition upperChar (c : ascii) : ascii :=
  let n := nat_of_ascii c in
  if ((97 <=? n) && (n <=? 122))%nat then ascii_of_nat (n - 32) else c.

Fixpoint toUpperCase (s : string) : string :=
  match s with
  | EmptyString => EmptyString
  | String c s' => String (upperChar c) (toUpperCase s')
  end.

Fixpoint trimStart (s : string) : string :=
  match s with
  | EmptyString => EmptyString
  | String c s' => if isWhiteSpace c then trimStart s' else s
  end.

Fixpoint trimEnd (s : string) : string :=
  match s with
  | EmptyString => EmptyString
  | String c s' =>
      let r := trimEnd s' in
      if isWhiteSpace c && (r =? "") then EmptyString else String c r
  end.

Definition trim (s : string) : string := trimEnd (trimStart s).

(** [s.startsWith(p)] *)
Definition startsWith (p s : string) : bool := prefix p s.

(** [s.includes(p)] *)
Fixpoint includes (p s : string) : bool :=
  prefix p s ||
  match s with
  | EmptyString => false
  | String _ s' => includes p s'
  end.

(** Number-to-string conversion of an integer, as a template literal
    [`${n}`] performs it (decimal digits, below 10^21). *)
Definition numberToString (n : Z) : string :=
  NilZero.string_of_int (Z.to_int n).

(** String conversion of a string-typed property in a template literal. *)
Definition toString (x : slot string) : string :=
  match x with
  | Undefined => "undefined"
  | Null => "null"
  | Val s => s
  end.

(** [parseInt(v)] without a radix: leading white space, an optional sign,
    an optional [0x] prefix, then the longest run of digits; [NaN] when
    there is none ([undefined] reads as the text "undefined"). *)
Definition digitOf (radix : Z) (c : ascii) : option Z :=
  let n := Z.of_nat (nat_of_ascii c) in
  let d :=
    if ((48 <=? n) && (n <=? 57))%Z then Some (n - 48)%Z
    else if ((97 <=? n) && (n <=? 122))%Z then Some (n - 87)%Z
    else if ((65 <=? n) && (n <=? 90))%Z then Some (n - 55)%Z
    else None in
  match d with
  | Some k => if (k <? radix)%Z then Some k else None
  | None => None
  end.

Fixpoint digits (radix : Z) (s : string) (acc : number) : number :=
  match s with
  | EmptyString => acc
  | String c s' =>
      match digitOf radix c with
      | Some d =>
          digits radix s'
            (Int (match acc with Int a => a * radix + d | NaN => d end)%Z)
      | None => acc
      end
  end.

Definition parseInt (v : slot string) : number :=
  let s1 := trimStart (toString v) in
  let '(neg, s2) :=
    match s1 with
    | String "-" r => (true, r)
    | String "+" r => (false, r)
    | _ => (false, s1)
    end in
  let '(radix, s3) :=
    match s2 with
    | String "0" (String "x" r) => (16%Z, r)
    | String "0" (String "X" r) => (16%Z, r)
    | _ => (10%Z, s2)
    end in
  match digits radix s3 NaN with
  | Int n => Int (if neg then - n else n)%Z
  | NaN => NaN
  end.

End JS.


(** ** The database driver, seen from a handler *)

Module Pg.

(** An error object as the handlers read it: [message], and the driver's
    [code], [detail] and [hint] when it sets them. *)
Record Error : Type := {
  message : string;
  code : JS.slot string;
  detail : JS.slot string;
  hint : JS.slot string;
}.

(** [new Error(msg)] and the runtime's [TypeError]s carry a message only. *)
Definition plainError (msg : string) : Error :=
  {| message := msg; code := JS.Undefined;
     detail := JS.Undefined; hint := JS.Undefined |}.

(** What [client.query(text, values)] sends. *)
Record Statement : Type := {
  text : string;
  values : list (JS.slot string);
}.

Record FieldDef : Type := {
  name : string;
  tableID : Z;
  columnID : Z;
  dataTypeID : Z;
  dataTypeSize : Z;
  dataTypeModifier : Z;
  format : string;
}.

(** The driver's result object; [rowCount] may be [null], [fields] and
    [rows] are always arrays. *)
Record Result (R : Type) : Type := {
  command : string;
  rowCount : option Z;
  fields : list FieldDef;
  rows : list R;
}.
Arguments command {R}.
Arguments rowCount {R}.
Arguments fields {R}.
Arguments rows {R}.

(** A value in a row of the free-form query tool. *)
Inductive Cell : Type :=
| CNull
| CString (s : string)
| CNumber (n : Z)
| CBool (b : bool).

Definition Row : Type := list (string * Cell).

(** A row of the [information_schema.columns] statement. *)
Record ColumnRow : Type := {
  column_name : string;
  data_type : string;
  is_nullable : string;
  column_default : option string;
  character_maximum_length : option Z;
  numeric_precision : option Z;
  numeric_scale : option Z;
}.

(** A row of the [information_schema.tables] statement. *)
Record TableRow : Type := {
  table_name : string;
  table_type : string;
}.

(** What the database does with a statement: it fails with an error or
    answers with a result. *)
Definition Answer (R : Type) : Type := Statement -> Error + Result R.

(** The pool with the database behind it: whether [pool.connect()]
    rejects, and the answers to the three kinds of statement. *)
Record Pool : Type := {
  connecting : option Error;
  freeform : Answer Row;
  columns : Answer ColumnRow;
  tables : Answer TableRow;
}.

(** The instrumented pool: counts of clients handed out and of
    [client.release()] calls, and the statements sent so far. *)
Record PoolState : Type := {
  acquired : nat;
  released : nat;
  executed : list Statement;
}.

Definition idle : PoolState :=
  {| acquired := 0; released := 0; executed := [] |}.

End Pg.

(** ** Handler computations: pool state and exceptions *)

Module Eff.
Import Pg.

Inductive completion (A : Type) : Type :=
| Normal (a : A)
| Throw (e : Error).
Arguments Normal {A} a.
Arguments Throw {A} e.

Definition M (A : Type) : Type := PoolState -> completion A * PoolState.

Definition ret {A} (a : A) : M A := fun s => (Normal a, s).

Definition throw {A} (e : Error) : M A := fun s => (Throw e, s).

Definition bind {A B} (m : M A) (k : A -> M B) : M B :=
  fun s =>
    match m s with
    | (Normal a, s1) => k a s1
    | (Throw e, s1) => (Throw e, s1)
    end.

(** [try { body } catch (error) { handler }] *)
Definition try_catch {A} (body : M A) (handler : Error -> M A) : M A :=
  fun s =>
    match body s with
    | (Normal a, s1) => (Normal a, s1)
    | (Throw e, s1) => handler e s1
    end.

(** [try { body } finally { final }]: [final] runs on every exit of
    [body]; its own exception, if any, replaces the completion. *)
Definition try_finally {A} (body : M A) (final : M unit) : M A :=
  fun s =>
    match body s with
    | (r, s1) =>
        match final s1 with
        | (Normal _, s2) => (r, s2)
        | (Throw e, s2) => (Throw e, s2)
        end
    end.

(** [await this.pool.connect()] *)
Definition connect (pool : Pool) : M unit :=
  fun s =>
    match connecting pool with
    | Some e => (Throw e, s)
    | None =>
        (Normal tt,
         {| acquired := S (acquired s); released := released s;
            executed := executed s |})
    end.

(** [await client.query(text, values)] *)
Definition query {R} (answer : Answer R) (st : Statement) : M (Result R) :=
  fun s =>
    let s1 := {| acquired := acquired s; released := released s;
                 executed := executed s ++ [st] |} in
    match answer st with
    | inl e => (Throw e, s1)
    | inr r => (Normal r, s1)
    end.

(** [client.release()] *)
Definition release : M unit :=
  fun s =>
    (Normal tt,
     {| acquired := acquired s; released := S (released s);
        executed := executed s |}).

(** Reading a method of a string-typed property: a [TypeError] on
    [undefined] and [null]. *)
Definition receiver (x : JS.slot string) (method : string) : M string :=
  match x with
  | JS.Val s => ret s
  | JS.Undefined =>
      throw (plainError
        ("Cannot read properties of undefined (reading '" ++ method ++ "')"))
  | JS.Null =>
      throw (plainError
        ("Cannot read properties of null (reading '" ++ method ++ "')"))
  end.

Module Notations.
Notation "x <- m ;; k" := (bind m (fun x => k))
  (at level 61, m at next level, right associativity).
Notation "m ;; k" := (bind m (fun _ => k))
  (at level 61, right associativity).
End Notations.

End Eff.

(** ** The response objects the handlers build *)

(** The [arguments] object of a [tools/call] request, with the keys the
    three tools declare; [maxRows] is a JSON number, read as an integer
    row count. *)
Module Args.
Record t : Type := {
  query : JS.slot string;
  schema : JS.slot string;
  context : JS.slot string;
  maxRows : JS.slot Z;
  tableName : JS.slot string;
  pattern : JS.slot string;
}.
End Args.

Module QueryOk.
Record FieldInfo : Type := {
  name : string;
  dataTypeID : Z;
  dataTypeSize : Z;
  dataTypeModifier : Z;
}.
Record Execution : Type := {
  command : string;
  rowCount : Z;
  fields : option (list FieldInfo);
}.
Record Metadata : Type := {
  hasData : bool;
  dataCount : nat;
  wasLimited : bool;
  limitApplied : Z;
}.
Record t : Type := {
  success : bool;
  query : string;
  schema : string;
  context : string;
  execution : Execution;
  data : list Pg.Row;
  metadata : Metadata;
}.
End QueryOk.

Module QueryErr.
Record t : Type := {
  success : bool;
  error : Pg.Error;
  query : JS.slot string;
  schema : string;
  context : string;
}.
End QueryErr.

Module DescribeOk.
Record Table : Type := {
  name : JS.slot string;
  schema : string;
  fullName : string;
}.
Record Constraints : Type := {
  characterMaximumLength : option Z;
  numericPrecision : option Z;
  numericScale : option Z;
}.
Record TypeInfo : Type := {
  fullType : string;
}.
Record Column : Type := {
  position : nat;
  columnName : string;  (* [name] *)
  dataType : string;
  nullable : bool;
  defaultValue : option string;
  constraints : Constraints;
  typeInfo : TypeInfo;
}.
Record Metadata : Type := {
  columnCount : nat;
  found : bool;
}.
Record t : Type := {
  success : bool;
  table : Table;
  columns : list Column;
  metadata : Metadata;
}.
End DescribeOk.

Module DescribeErr.
Record Table : Type := {
  name : JS.slot string;
  schema : string;
}.
Record t : Type := {
  success : bool;
  error : Pg.Error;
  table : Table;
}.
End DescribeErr.

Module ListOk.
Record Table : Type := {
  position : nat;
  name : string;
  type : string;
  fullName : string;
}.
Record Metadata : Type := {
  tableCount : nat;
  found : bool;
  filtered : bool;
}.
Record t : Type := {
  success : bool;
  schema : string;
  pattern : option string;
  tables : list Table;
  metadata : Metadata;
}.
End ListOk.

Module ListErr.
Record t : Type := {
  success : bool;
  error : Pg.Error;
  schema : string;
  pattern : option string;
}.
End ListErr.

(** The object a handler serialises with [JSON.stringify] into the single
    text item of its tool result. *)
Inductive Response : Type :=
| QuerySuccess (r : QueryOk.t)
| QueryFailure (r : QueryErr.t)
| DescribeSuccess (r : DescribeOk.t)
| DescribeFailure (r : DescribeErr.t)
| ListSuccess (r : ListOk.t)
| ListFailure (r : ListErr.t).



(** ** The server *)

Module Server.
Import Pg Eff Eff.Notations.

(** The variables of [process.env] the constructor reads for
    [defaultConfig]. *)
Record ProcessEnv : Type := {
  POSTGRES_DEFAULT_SCHEMA : JS.slot string;
  POSTGRES_DEFAULT_CONTEXT : JS.slot string;
  POSTGRES_MAX_ROWS : JS.slot string;
  POSTGRES_TIMEOUT : JS.slot string;
}.

Record Config : Type := {
  schema : string;
  context : string;
  maxRows : Z;
  timeout : Z;
}.

(** [this.defaultConfig = { ... }] in the constructor. *)
Definition defaultConfig (env : ProcessEnv) : Config :=
  {| schema := JS.or_else (POSTGRES_DEFAULT_SCHEMA env) "public";
     context := JS.or_else (POSTGRES_DEFAULT_CONTEXT env) "";
     maxRows := JS.nan_or (JS.parseInt (POSTGRES_MAX_ROWS env)) 100;
     timeout := JS.nan_or (JS.parseInt (POSTGRES_TIMEOUT env)) 30000 |}.

(** The instance: its default configuration and its pool. *)
Record t : Type := {
  config : Config;
  pool : Pool;
}.

(** [array.map((x, index) => f x index)] *)
Fixpoint mapi_from {A B} (i : nat) (f : A -> nat -> B) (l : list A) : list B :=
  match l with
  | [] => []
  | x :: l' => f x i :: mapi_from (S i) f l'
  end.

Definition mapi {A B} (f : A -> nat -> B) (l : list A) : list B :=
  mapi_from 0 f l.

Definition nl : string := String (ascii_of_nat 10) EmptyString.

(** Destructuring [args] when the request has no [arguments]. *)
Definition destructureError (key : string) : Error :=
  plainError ("Cannot destructure property '" ++ key
              ++ "' of 'args' as it is undefined.").

(** The error fields every failure envelope copies. *)
Definition errorFields (error : Error) : Error :=
  {| message := message error;
     code := code error;
     detail := detail error;
     hint := hint error |}.

(** *** handleQuery *)

(** [const limitRows = maxRows || this.defaultConfig.maxRows] *)
Definition limitRows (self : t) (args : Args.t) : Z :=
  JS.or_else (Args.maxRows args) (maxRows (config self)).

(** [const targetSchema = schema || this.defaultConfig.schema] *)
Definition targetSchema (self : t) (args : Args.t) : string :=
  JS.or_else (Args.schema args) (schema (config self)).

(** [context || this.defaultConfig.context] *)
Definition targetContext (self : t) (args : Args.t) : string :=
  JS.or_else (Args.context args) (context (config self)).

(** The test guarding [finalQuery += ` LIMIT ${limitRows}`]. *)
Definition needsLimit (query : string) (limitRows : Z) : bool :=
  JS.startsWith "SELECT" (JS.toUpperCase (JS.trim query))
  && negb (JS.includes "LIMIT" (JS.toUpperCase query))
  && (0 <? limitRows)%Z.

(** [finalQuery] after the [if] statement. *)
Definition finalQuery (query : string) (limitRows : Z) : string :=
  if needsLimit query limitRows
  then query ++ " LIMIT " ++ JS.numberToString limitRows
  else query.

Definition fieldInfo (f : FieldDef) : QueryOk.FieldInfo :=
  {| QueryOk.name := name f;
     QueryOk.dataTypeID := dataTypeID f;
     QueryOk.dataTypeSize := dataTypeSize f;
     QueryOk.dataTypeModifier := dataTypeModifier f |}.

(** The driver's [fields] and [rows] are arrays, hence truthy: the guards
    [result.fields ? ... : null], [result.rows || []] and
    [result.rows && ...] take the array. *)
Definition handleQuery (self : t) (args : option Args.t) : M Response :=
  match args with
  | None => throw (destructureError "query")
  | Some a =>
      let query := Args.query a in
      let targetSchema := targetSchema self a in
      let limitRows := limitRows self a in
      try_catch
        (connect (pool self) ;;
         try_finally
           (let contextInfo :=
              if JS.truthy (targetContext self a)
              then nl ++ "Context: " ++ targetContext self a ++ nl
              else "" in
            q <- receiver query "trim" ;;
            let finalQuery := finalQuery q limitRows in
            result <- Eff.query (freeform (pool self))
                                {| text := finalQuery; values := [] |} ;;
            ret (QuerySuccess
              {| QueryOk.success := true;
                 QueryOk.query := finalQuery;
                 QueryOk.schema := targetSchema;
                 QueryOk.context := targetContext self a;
                 QueryOk.execution :=
                   {| QueryOk.command := command result;
                      QueryOk.rowCount :=
                        match rowCount result with
                        | Some n => if JS.truthy n then n else 0%Z
                        | None => 0%Z
                        end;
                      QueryOk.fields := Some (map fieldInfo (fields result)) |};
                 QueryOk.data := rows result;
                 QueryOk.metadata :=
                   {| QueryOk.hasData := (0 <? length (rows result))%nat;
                      QueryOk.dataCount := length (rows result);
                      QueryOk.wasLimited := negb (q =? finalQuery);
                      QueryOk.limitApplied := limitRows |} |}))
           release)
        (fun error =>
           ret (QueryFailure
             {| QueryErr.success := false;
                QueryErr.error := errorFields error;
                QueryErr.query := query;
                QueryErr.schema := targetSchema;
                QueryErr.context := targetContext self a |}))
  end.

(** *** handleDescribeTable *)

Definition describeTableQuery : string :=
  nl ++ "      SELECT " ++
  nl ++ "        column_name," ++
  nl ++ "        data_type," ++
  nl ++ "        is_nullable," ++
  nl ++ "        column_default," ++
  nl ++ "        character_maximum_length," ++
  nl ++ "        numeric_precision," ++
  nl ++ "        numeric_scale" ++
  nl ++ "      FROM information_schema.columns " ++
  nl ++ "      WHERE table_schema = $1 AND table_name = $2" ++
  nl ++ "      ORDER BY ordinal_position;" ++
  nl ++ "    ".

(** The [typeInfo.fullType] expression. *)
Definition fullType (row : ColumnRow) : string :=
  data_type row
  ++ (match character_maximum_length row with
      | Some n => if JS.truthy n then "(" ++ JS.numberToString n ++ ")" else ""
      | None => ""
      end)
  ++ (match numeric_precision row with
      | Some p =>
          if JS.truthy p
          then "(" ++ JS.numberToString p
               ++ (match numeric_scale row with
                   | Some s =>
                       if JS.truthy s then "," ++ JS.numberToString s else ""
                   | None => ""
                   end)
               ++ ")"
          else ""
      | None => ""
      end).

(** The callback of [result.rows.map] in [handleDescribeTable]. *)
Definition columnOf (row : ColumnRow) (index : nat) : DescribeOk.Column :=
  {| DescribeOk.position := index + 1;
     DescribeOk.columnName := column_name row;
     DescribeOk.dataType := data_type row;
     DescribeOk.nullable := (is_nullable row =? "YES");
     DescribeOk.defaultValue := column_default row;
     DescribeOk.constraints :=
       {| DescribeOk.characterMaximumLength := character_maximum_length row;
          DescribeOk.numericPrecision := numeric_precision row;
          DescribeOk.numericScale := numeric_scale row |};
     DescribeOk.typeInfo := {| DescribeOk.fullType := fullType row |} |}.

Definition handleDescribeTable (self : t) (args : option Args.t) : M Response :=
  match args with
  | None => throw (destructureError "tableName")
  | Some a =>
      let tableName := Args.tableName a in
      let targetSchema := targetSchema self a in
      let query := describeTableQuery in
      try_catch
        (connect (pool self) ;;
         try_finally
           (result <- Eff.query (columns (pool self))
                        {| text := query;
                           values := [JS.Val targetSchema; tableName] |} ;;
            ret (DescribeSuccess
              {| DescribeOk.success := true;
                 DescribeOk.table :=
                   {| DescribeOk.name := tableName;
                      DescribeOk.schema := targetSchema;
                      DescribeOk.fullName :=
                        targetSchema ++ "." ++ JS.toString tableName |};
                 DescribeOk.columns := mapi columnOf (rows result);
                 DescribeOk.metadata :=
                   {| DescribeOk.columnCount := length (rows result);
                      DescribeOk.found :=
                        (0 <? length (rows result))%nat |} |}))
           release)
        (fun error =>
           ret (DescribeFailure
             {| DescribeErr.success := false;
                DescribeErr.error := errorFields error;
                DescribeErr.table :=
                  {| DescribeErr.name := tableName;
                     DescribeErr.schema := targetSchema |} |}))
  end.

(** *** handleListTables *)

Definition listTablesQuery : string :=
  nl ++ "      SELECT table_name, table_type" ++
  nl ++ "      FROM information_schema.tables " ++
  nl ++ "      WHERE table_schema = $1" ++
  nl ++ "    ".

(** The statement [handleListTables] builds: [query] and [params] after
    the [if (pattern)] block and the [ORDER BY] suffix. *)
Definition listTablesStatement (targetSchema : string)
    (pattern : JS.slot string) : Statement :=
  let query := listTablesQuery in
  let params := [JS.Val targetSchema] in
  let '(query, params) :=
    if JS.truthy pattern
    then (query ++ " AND table_name LIKE $2", (params ++ [pattern])%list)
    else (query, params) in
  let query := query ++ " ORDER BY table_name" in
  {| text := query; values := params |}.

(** The callback of [result.rows.map] in [handleListTables]. *)
Definition tableOf (targetSchema : string) (row : TableRow) (index : nat)
    : ListOk.Table :=
  {| ListOk.position := index + 1;
     ListOk.name := table_name row;
     ListOk.type := table_type row;
     ListOk.fullName := targetSchema ++ "." ++ table_name row |}.

Definition handleListTables (self : t) (args : option Args.t) : M Response :=
  match args with
  | None => throw (destructureError "schema")
  | Some a =>
      let pattern := Args.pattern a in
      let targetSchema := targetSchema self a in
      let st := listTablesStatement targetSchema pattern in
      try_catch
        (connect (pool self) ;;
         try_finally
           (result <- Eff.query (tables (pool self)) st ;;
            ret (ListSuccess
              {| ListOk.success := true;
                 ListOk.schema := targetSchema;
                 ListOk.pattern := JS.or_null pattern;
                 ListOk.tables := mapi (tableOf targetSchema) (rows result);
                 ListOk.metadata :=
                   {| ListOk.tableCount := length (rows result);
                      ListOk.found := (0 <? length (rows result))%nat;
                      ListOk.filtered := JS.not_null pattern |} |}))
           release)
        (fun error =>
           ret (ListFailure
             {| ListErr.success := false;
                ListErr.error := errorFields error;
                ListErr.schema := targetSchema;
                ListErr.pattern := JS.or_null pattern |}))
  end.

(** *** The [CallToolRequestSchema] handler *)

Definition callTool (self : t) (name : string) (args : option Args.t)
    : M Response :=
  if name =? "query" then handleQuery self args
  else if name =? "describe_table" then handleDescribeTable self args
  else if name =? "list_tables" then handleListTables self args
  else throw (plainError ("Unknown tool: " ++ name)).

End Server.

(** ** Concrete scenarios *)

Module Scenario.
Import Pg Server.

(** A process started with none of the optional variables set. *)
Definition env : ProcessEnv :=
  {| POSTGRES_DEFAULT_SCHEMA := JS.Undefined;
     POSTGRES_DEFAULT_CONTEXT := JS.Undefined;
     POSTGRES_MAX_ROWS := JS.Undefined;
     POSTGRES_TIMEOUT := JS.Undefined |}.

(** An [arguments] object with no key set. *)
Definition noArgs : Args.t :=
  {| Args.query := JS.Undefined;
     Args.schema := JS.Undefined;
     Args.context := JS.Undefined;
     Args.maxRows := JS.Undefined;
     Args.tableName := JS.Undefined;
     Args.pattern := JS.Undefined |}.

(** [query({ query, maxRows })] *)
Definition queryArgs (query : string) (maxRows : JS.slot Z) : Args.t :=
  {| Args.query := JS.Val query;
     Args.schema := Args.schema noArgs;
     Args.context := Args.context noArgs;
     Args.maxRows := maxRows;
     Args.tableName := Args.tableName noArgs;
     Args.pattern := Args.pattern noArgs |}.

(** [describe_table({ tableName, schema })] *)
Definition describeArgs (tableName schema : string) : Args.t :=
  {| Args.query := Args.query noArgs;
     Args.schema := JS.Val schema;
     Args.context := Args.context noArgs;
     Args.maxRows := Args.maxRows noArgs;
     Args.tableName := JS.Val tableName;
     Args.pattern := Args.pattern noArgs |}.

(** [list_tables({ schema, pattern })] *)
Definition listArgs (schema : string) (pattern : JS.slot string) : Args.t :=
  {| Args.query := Args.query noArgs;
     Args.schema := JS.Val schema;
     Args.context := Args.context noArgs;
     Args.maxRows := Args.maxRows noArgs;
     Args.tableName := Args.tableName noArgs;
     Args.pattern := pattern |}.

(** The rows of [information_schema.columns] for
    [CREATE TABLE users (id integer PRIMARY KEY, name varchar(50),
    created_at timestamp)].  PostgreSQL reports an [integer] column with
    [numeric_precision = 32] and [numeric_scale = 0]; the length of a
    [varchar(n)] is its [character_maximum_length]; a [timestamp] has
    neither. *)
Definition usersColumns : list ColumnRow :=
  [ {| column_name := "id"; data_type := "integer"; is_nullable := "NO";
       column_default := None; character_maximum_length := None;
       numeric_precision := Some 32%Z; numeric_scale := Some 0%Z |};
    {| column_name := "name"; data_type := "character varying";
       is_nullable := "YES"; column_default := None;
       character_maximum_length := Some 50%Z;
       numeric_precision := None; numeric_scale := None |};
    {| column_name := "created_at";
       data_type := "timestamp without time zone";
       is_nullable := "YES"; column_default := None;
       character_maximum_length := None;
       numeric_precision := None; numeric_scale := None |} ].

Definition usersTable : TableRow :=
  {| table_name := "users"; table_type := "BASE TABLE" |}.

Definition selected {R} (rows : list R) : Result R :=
  {| command := "SELECT";
     rowCount := Some (Z.of_nat (length rows));
     fields := [];
     rows := rows |}.

(** [x === v] for a bound value. *)
Definition holds (x : JS.slot string) (v : string) : bool :=
  match x with JS.Val s => s =? v | _ => false end.

(** A reachable database whose only table is [public.users], empty: the
    free-form statements of the scenarios select nothing, the column
    statement finds [users] in [public], and the table statement lists
    [users] for [public], alone or under the pattern [%user%]. *)
Definition pool : Pool :=
  {| connecting := None;
     freeform := fun _ => inr (selected []);
     columns := fun st =>
       match values st with
       | [schema; table] =>
           if holds schema "public" && holds table "users"
           then inr (selected usersColumns)
           else inr (selected [])
       | _ => inr (selected [])
       end;
     tables := fun st =>
       match values st with
       | [schema] =>
           if holds schema "public"
           then inr (selected [usersTable])
           else inr (selected [])
       | [schema; pattern] =>
           if holds schema "public" && holds pattern "%user%"
           then inr (selected [usersTable])
           else inr (selected [])
       | _ => inr (selected [])
       end |}.

(** The same database when [pool.connect()] rejects with [e]. *)
Definition unreachable (e : Error) : Pool :=
  {| connecting := Some e;
     freeform := freeform pool;
     columns := columns pool;
     tables := tables pool |}.

(** A reachable database that fails every statement with [e]. *)
Definition rejecting (e : Error) : Pool :=
  {| connecting := None;
     freeform := fun _ => inl e;
     columns := fun _ => inl e;
     tables := fun _ => inl e |}.

Definition server (p : Pool) : Server.t :=
  {| config := defaultConfig env; Server.pool := p |}.

(** A driver error. *)
Definition divisionByZero : Error :=
  {| message := "division by zero";
     code := JS.Val "22012";
     detail := JS.Undefined;
     hint := JS.Undefined |}.

End Scenario.

(** ** Notions the properties are stated with *)

Module Spec.
Import Pg Eff.

(** The envelope with the echoed [schema] and [context] of a query
    response replaced. *)
Definition withSchemaContext (schema context : string) (r : Response)
    : Response :=
  match r with
  | QuerySuccess r =>
      QuerySuccess
        {| QueryOk.success := QueryOk.success r;
           QueryOk.query := QueryOk.query r;
           QueryOk.schema := schema;
           QueryOk.context := context;
           QueryOk.execution := QueryOk.execution r;
           QueryOk.data := QueryOk.data r;
           QueryOk.metadata := QueryOk.metadata r |}
  | QueryFailure r =>
      QueryFailure
        {| QueryErr.success := QueryErr.success r;
           QueryErr.error := QueryErr.error r;
           QueryErr.query := QueryErr.query r;
           QueryErr.schema := schema;
           QueryErr.context := context |}
  | _ => r
  end.

(** A property is supplied when its key holds a value. *)
Definition supplied {A} (x : JS.slot A) : bool :=
  match x with JS.Val _ => true | _ => false end.

(** No character of [p] is white space. *)
Fixpoint solid (p : string) : bool :=
  match p with
  | EmptyString => true
  | String c p' => negb (JS.isWhiteSpace c) && solid p'
  end.

End Spec.

(** ** The tool catalog *)

(** What the [ListToolsRequestSchema] handler returns. *)
Module Tools.

Module Property.
Record t : Type := {
  key : string;
  type : string;
  description : string;
}.
End Property.

Module InputSchema.
Record t : Type := {
  type : string;
  properties : list Property.t;
  required : JS.slot (list string);
}.
End InputSchema.

Record Tool : Type := {
  name : string;
  description : string;
  inputSchema : InputSchema.t;
}.

Definition tools : list Tool :=
  [ {| name := "query";
       description := "Execute a PostgreSQL query and return results";
       inputSchema :=
         {| InputSchema.type := "object";
            InputSchema.properties :=
              [ {| Property.key := "query";
                   Property.type := "string";
                   Property.description :=
                     "The PostgreSQL query to execute "
                     ++ "(SELECT, INSERT, UPDATE, DELETE, etc.)" |};
                {| Property.key := "schema";
                   Property.type := "string";
                   Property.description :=
                     "Schema name to use (defaults to configured schema)" |};
                {| Property.key := "context";
                   Property.type := "string";
                   Property.description :=
                     "Additional context for the query" |};
                {| Property.key := "maxRows";
                   Property.type := "number";
                   Property.description :=
                     "Maximum number of rows to return "
                     ++ "(defaults to configured maxRows)" |} ];
            InputSchema.required := JS.Val ["query"] |} |};
    {| name := "describe_table";
       description := "Get table structure and metadata";
       inputSchema :=
         {| InputSchema.type := "object";
            InputSchema.properties :=
              [ {| Property.key := "tableName";
                   Property.type := "string";
                   Property.description :=
                     "Name of the table to describe" |};
                {| Property.key := "schema";
                   Property.type := "string";
                   Property.description :=
                     "Schema name (defaults to configured schema)" |} ];
            InputSchema.required := JS.Val ["tableName"] |} |};
    {| name := "list_tables";
       description := "List all tables in the database or specific schema";
       inputSchema :=
         {| InputSchema.type := "object";
            InputSchema.properties :=
              [ {| Property.key := "schema";
                   Property.type := "string";
                   Property.description :=
                     "Schema name (defaults to configured schema)" |};
                {| Property.key := "pattern";
                   Property.type := "string";
                   Property.description :=
                     "Pattern to filter table names (SQL LIKE pattern)" |} ];
            InputSchema.required := JS.Undefined |} |} ].

End Tools.

(** ** The pool options of the constructor *)

Module Startup.

(** The variables of [process.env] read for [new Pool({ ... })]. *)
Record ConnectionEnv : Type := {
  POSTGRES_HOST : JS.slot string;
  POSTGRES_PORT : JS.slot string;
  POSTGRES_DB : JS.slot string;
  POSTGRES_USER : JS.slot string;
  POSTGRES_PASSWORD : JS.slot string;
}.

Record PoolOptions : Type := {
  host : string;
  port : Z;
  database : string;
  user : string;
  password : string;
  max : Z;
  idleTimeoutMillis : Z;
  connectionTimeoutMillis : Z;
}.

(** The argument of [new Pool] in the constructor. *)
Definition poolOptions (env : ConnectionEnv) : PoolOptions :=
  {| host := JS.or_else (POSTGRES_HOST env) "localhost";
     port := JS.nan_or (JS.parseInt (POSTGRES_PORT env)) 5432;
     database := JS.or_else (POSTGRES_DB env) "postgres";
     user := JS.or_else (POSTGRES_USER env) "postgres";
     password := JS.or_else (POSTGRES_PASSWORD env) "";
     max := 20;
     idleTimeoutMillis := 30000;
     connectionTimeoutMillis := 2000 |}.

End Startup.

(** ** Reading an envelope *)

Module Envelope.

(** The [success] flag of an envelope. *)
Definition success (r : Response) : bool :=
  match r with
  | QuerySuccess r => QueryOk.success r
  | QueryFailure r => QueryErr.success r
  | DescribeSuccess r => DescribeOk.success r
  | DescribeFailure r => DescribeErr.success r
  | ListSuccess r => ListOk.success r
  | ListFailure r => ListErr.success r
  end.

End Envelope.

(** * Properties *)

Import JS Pg Eff Server Spec.

(** Unfolds a handler into its pool steps. *)
Ltac run_handler :=
  unfold Server.handleQuery, Server.handleDescribeTable,
    Server.handleListTables, Eff.try_catch, Eff.try_finally, Eff.bind,
    Eff.connect, Eff.query, Eff.release, Eff.receiver, Eff.ret, Eff.throw.

(** ** The runtime fragment on sample texts *)

Example toUpperCase_select :
  toUpperCase "  select * from T" = "  SELECT * FROM T".
Proof. reflexivity. Qed.

Example trim_both_ends : trim "  a b  " = "a b".
Proof. reflexivity. Qed.

Example numberToString_100 : numberToString 100 = "100".
Proof. reflexivity. Qed.

Example parseInt_prefix : parseInt (Val " -12px") = Int (-12).
Proof. reflexivity. Qed.

Example parseInt_hex : parseInt (Val "0x1F") = Int 31.
Proof. reflexivity. Qed.

Example parseInt_undefined : parseInt Undefined = NaN.
Proof. reflexivity. Qed.

Example defaultConfig_unset :
  defaultConfig Scenario.env
  = {| schema := "public"; context := ""; maxRows := 100; timeout := 30000 |}.
Proof. reflexivity. Qed.

(** ** Strings *)

Lemma append_assoc (a b c : string) : (a ++ b) ++ c = a ++ (b ++ c).
Proof. induction a as [|x a IH]; simpl; [reflexivity | now rewrite IH]. Qed.

Lemma append_same_inv (q t : string) : q ++ t = q -> t = "".
Proof.
  induction q as [|c q IH]; simpl; intros H.
  - exact H.
  - injection H as H. now apply IH.
Qed.

Lemma toUpperCase_app (a b : string) :
  toUpperCase (a ++ b) = toUpperCase a ++ toUpperCase b.
Proof. induction a as [|c a IH]; simpl; [reflexivity | now rewrite IH]. Qed.

Lemma prefix_empty (s : string) : prefix "" s = true.
Proof. now destruct s. Qed.

Lemma prefix_app (p s : string) : prefix p (p ++ s) = true.
Proof.
  induction p as [|c p IH]; simpl.
  - apply prefix_empty.
  - destruct (ascii_dec c c) as [_|N]; [exact IH | now elim N].
Qed.

Lemma includes_prefix (p s : string) :
  prefix p s = true -> includes p s = true.
Proof. intros H. destruct s; cbn [includes]; rewrite H; reflexivity. Qed.

Lemma includes_app (p a b : string) : includes p (a ++ p ++ b) = true.
Proof.
  induction a as [|c a IH].
  - cbn [append]. apply includes_prefix, prefix_app.
  - change (includes p (String c (a ++ p ++ b)) = true).
    cbn [includes]. rewrite IH. apply orb_true_r.
Qed.

(** Trimming cannot create or destroy an occurrence of a text without
    white space: the handler's test on [query.toUpperCase()] and the same
    test on the trimmed text agree. *)

Lemma upperChar_white (c : ascii) : isWhiteSpace c = true -> upperChar c = c.
Proof.
  unfold isWhiteSpace, upperChar. intros H.
  destruct ((97 <=? nat_of_ascii c)%nat && (nat_of_ascii c <=? 122)%nat) eqn:E;
    [|reflexivity].
  exfalso. apply andb_true_iff in E as [E1 E2].
  apply Nat.leb_le in E1, E2.
  apply orb_true_iff in H as [H|H].
  - apply andb_true_iff in H as [_ H]. apply Nat.leb_le in H. lia.
  - apply Nat.eqb_eq in H. lia.
Qed.

Lemma prefix_white (x : ascii) (p : string) (c : ascii) (s : string) :
  isWhiteSpace x = false -> isWhiteSpace c = true ->
  prefix (String x p) (String (upperChar c) s) = false.
Proof.
  intros Hx Hc. rewrite (upperChar_white c Hc). simpl.
  destruct (ascii_dec x c) as [E|_]; [|reflexivity].
  subst. congruence.
Qed.

Lemma includes_trimStart (p s : string) :
  solid p = true -> p <> "" ->
  includes p (toUpperCase (trimStart s)) = includes p (toUpperCase s).
Proof.
  intros Hp Np. destruct p as [|x p]; [now elim Np|].
  simpl in Hp. apply andb_true_iff in Hp as [Hx _].
  apply negb_true_iff in Hx.
  induction s as [|c s IH]; [reflexivity|].
  cbn [trimStart]. destruct (isWhiteSpace c) eqn:Hc; [|reflexivity].
  rewrite IH. cbn [toUpperCase includes].
  now rewrite (prefix_white x p c _ Hx Hc).
Qed.

Lemma prefix_trimEnd (s : string) :
  forall p, solid p = true ->
  prefix p (toUpperCase (trimEnd s)) = prefix p (toUpperCase s).
Proof.
  induction s as [|c s IH]; intros p Hp; [reflexivity|].
  destruct p as [|x p]; [now rewrite !prefix_empty|].
  simpl in Hp. apply andb_true_iff in Hp as [Hx Hp].
  apply negb_true_iff in Hx.
  cbn [trimEnd].
  destruct (isWhiteSpace c && (trimEnd s =? ""))%bool eqn:E.
  - apply andb_true_iff in E as [Hc _].
    cbn [toUpperCase]. rewrite (prefix_white x p c _ Hx Hc). reflexivity.
  - cbn [toUpperCase prefix].
    destruct (ascii_dec x (upperChar c)); [|reflexivity].
    apply IH, Hp.
Qed.

Lemma includes_trimEnd (p s : string) :
  solid p = true -> p <> "" ->
  includes p (toUpperCase (trimEnd s)) = includes p (toUpperCase s).
Proof.
  intros Hp Np. induction s as [|c s IH]; [reflexivity|].
  cbn [trimEnd].
  destruct (isWhiteSpace c && (trimEnd s =? ""))%bool eqn:E.
  - apply andb_true_iff in E as [Hc Ht]. apply String.eqb_eq in Ht.
    rewrite Ht in IH. cbn [toUpperCase includes] in *.
    rewrite <- IH.
    destruct p as [|x p]; [now elim Np|].
    simpl in Hp. apply andb_true_iff in Hp as [Hx _].
    apply negb_true_iff in Hx.
    rewrite (prefix_white x p c _ Hx Hc). reflexivity.
  - cbn [toUpperCase includes]. rewrite IH. f_equal.
    pose proof (prefix_trimEnd (String c s) p Hp) as P.
    cbn [trimEnd] in P. rewrite E in P. exact P.
Qed.

Lemma includes_trim (p s : string) :
  solid p = true -> p <> "" ->
  includes p (toUpperCase (trim s)) = includes p (toUpperCase s).
Proof.
  intros Hp Np. unfold trim.
  now rewrite includes_trimEnd, includes_trimStart.
Qed.

(** The guard of [handleQuery], with both tests on the trimmed text. *)
Lemma needsLimit_trimmedUpper (query : string) (L : Z) :
  needsLimit query L
  = (let trimmedUpper := toUpperCase (trim query) in
     startsWith "SELECT" trimmedUpper
     && negb (includes "LIMIT" trimmedUpper)
     && (0 <? L)%Z).
Proof.
  unfold needsLimit. cbv zeta.
  rewrite (includes_trim "LIMIT" query); [reflexivity|reflexivity|discriminate].
Qed.

(** ** handleQuery *)

Lemma handleQuery_executed (self : Server.t) (a : Args.t) (q : string)
    (s : PoolState) :
  Args.query a = Val q ->
  connecting (pool self) = None ->
  executed (snd (handleQuery self (Some a) s))
  = (executed s
     ++ [{| text := finalQuery q (limitRows self a); values := [] |}])%list.
Proof.
  intros Hq Hc. run_handler. rewrite Hq, Hc. simpl.
  destruct (freeform _ _); reflexivity.
Qed.

Lemma handleQuery_success (self : Server.t) (a : Args.t) (q : string)
    (s : PoolState) (r : Result Row) :
  Args.query a = Val q ->
  connecting (pool self) = None ->
  freeform (pool self)
    {| text := finalQuery q (limitRows self a); values := [] |} = inr r ->
  exists resp,
    fst (handleQuery self (Some a) s) = Normal (QuerySuccess resp)
    /\ QueryOk.success resp = true
    /\ QueryOk.query resp = finalQuery q (limitRows self a)
    /\ QueryOk.wasLimited (QueryOk.metadata resp)
       = negb (q =? finalQuery q (limitRows self a))
    /\ QueryOk.limitApplied (QueryOk.metadata resp) = limitRows self a.
Proof.
  intros Hq Hc Hr. run_handler. rewrite Hq, Hc. simpl. rewrite Hr. simpl.
  eexists. split; [reflexivity|]. simpl. repeat split.
Qed.

Lemma needsLimit_positive (q : string) (L : Z) :
  (0 < L)%Z ->
  needsLimit q L
  = startsWith "SELECT" (toUpperCase (trim q))
    && negb (includes "LIMIT" (toUpperCase q)).
Proof.
  intros HL. unfold needsLimit.
  replace (0 <? L)%Z with true by (symmetry; apply Z.ltb_lt; exact HL).
  apply andb_true_r.
Qed.

Lemma needsLimit_only_positive (q : string) (L : Z) :
  needsLimit q L = true -> (0 < L)%Z.
Proof.
  unfold needsLimit. intros H. apply andb_true_iff in H as [_ H].
  now apply Z.ltb_lt.
Qed.

Lemma suffixed_neq (q : string) (L : Z) :
  q ++ " LIMIT " ++ numberToString L <> q.
Proof. intros H. apply append_same_inv in H. discriminate H. Qed.

Lemma finalQuery_changed (q : string) (L : Z) :
  negb (q =? finalQuery q L) = needsLimit q L.
Proof.
  unfold finalQuery. destruct (needsLimit q L).
  - destruct (String.eqb_spec q (q ++ " LIMIT " ++ numberToString L)) as [E|_];
      [|reflexivity].
    symmetry in E. now apply suffixed_neq in E.
  - now rewrite String.eqb_refl.
Qed.

(** C1.  For a query text [q] and a positive effective row limit [L], the
    text the query handler executes is [q] with the suffix [" LIMIT L"]
    appended exactly when the trimmed, uppercased text starts with
    "SELECT" and the uppercased text does not contain "LIMIT", and is [q]
    itself otherwise; the success envelope echoes the executed text and
    its [metadata.wasLimited] is true exactly in the first case. *)
Theorem C1_limit_suffix_iff (self : Server.t) (a : Args.t) (q : string)
    (s : PoolState) :
  Args.query a = Val q ->
  connecting (pool self) = None ->
  (0 < limitRows self a)%Z ->
  let suffix := " LIMIT " ++ numberToString (limitRows self a) in
  let unlimitedSelect :=
    startsWith "SELECT" (toUpperCase (trim q))
    && negb (includes "LIMIT" (toUpperCase q)) in
  exists final,
    executed (snd (handleQuery self (Some a) s))
    = (executed s ++ [{| text := final; values := [] |}])%list
    /\ (final = q ++ suffix <-> unlimitedSelect = true)
    /\ (final = q <-> unlimitedSelect = false)
    /\ (forall r,
          freeform (pool self) {| text := final; values := [] |} = inr r ->
          exists resp,
            fst (handleQuery self (Some a) s) = Normal (QuerySuccess resp)
            /\ QueryOk.query resp = final
            /\ QueryOk.wasLimited (QueryOk.metadata resp) = unlimitedSelect).
Proof.
  intros Hq Hc HL suffix unlimitedSelect.
  exists (finalQuery q (limitRows self a)).
  assert (HN : needsLimit q (limitRows self a) = unlimitedSelect)
    by (apply needsLimit_positive; exact HL).
  split; [apply handleQuery_executed; assumption|].
  split; [|split].
  - unfold finalQuery. rewrite HN. subst suffix.
    destruct unlimitedSelect; split; intros H;
      try reflexivity; try discriminate.
    symmetry in H. now apply suffixed_neq in H.
  - unfold finalQuery. rewrite HN. subst suffix.
    destruct unlimitedSelect; split; intros H;
      try reflexivity; try discriminate.
    now apply suffixed_neq in H.
  - intros r Hr.
    destruct (handleQuery_success self a q s r Hq Hc Hr)
      as (resp & E & _ & Eq & Ew & _).
    exists resp. split; [exact E|]. split; [exact Eq|].
    rewrite Ew, finalQuery_changed. exact HN.
Qed.

(** [query({ query: "SELECT * FROM orders", maxRows: 5 })] executes
    "SELECT * FROM orders LIMIT 5". *)
Lemma C1_witness :
  exists final,
    executed (snd (handleQuery (Scenario.server Scenario.pool)
                     (Some (Scenario.queryArgs "SELECT * FROM orders"
                              (Val 5%Z)))
                     idle))
    = [{| text := final; values := [] |}]
    /\ final = "SELECT * FROM orders LIMIT 5".
Proof.
  destruct (C1_limit_suffix_iff (Scenario.server Scenario.pool)
              (Scenario.queryArgs "SELECT * FROM orders" (Val 5%Z))
              "SELECT * FROM orders" idle eq_refl eq_refl eq_refl)
    as (final & He & Hs & _).
  exists final. split; [exact He|]. apply Hs. reflexivity.
Defined.

(** C5.  When the query text contains "LIMIT" in any letter case (some
    part of it uppercases to "LIMIT"), or when its trimmed, uppercased form
    does not start with "SELECT", the executed text is the input text,
    whatever the effective limit. *)
Theorem C5_identity_outside_plain_select (self : Server.t) (a : Args.t)
    (q : string) (s : PoolState) :
  Args.query a = Val q ->
  connecting (pool self) = None ->
  (exists pre mid post, q = pre ++ mid ++ post /\ toUpperCase mid = "LIMIT")
  \/ startsWith "SELECT" (toUpperCase (trim q)) = false ->
  executed (snd (handleQuery self (Some a) s))
  = (executed s ++ [{| text := q; values := [] |}])%list.
Proof.
  intros Hq Hc H. rewrite (handleQuery_executed self a q s Hq Hc).
  assert (E : needsLimit q (limitRows self a) = false).
  { unfold needsLimit. destruct H as [(pre & mid & post & E & Hm)|H].
    - rewrite E at 2. rewrite !toUpperCase_app, Hm, includes_app.
      simpl. now rewrite andb_false_r.
    - now rewrite H. }
  unfold finalQuery. now rewrite E.
Qed.

Lemma C5_witness :
  executed (snd (handleQuery (Scenario.server Scenario.pool)
                   (Some (Scenario.queryArgs "select a from t limit 3"
                            (Val 5%Z)))
                   idle))
  = [{| text := "select a from t limit 3"; values := [] |}]
  /\ executed (snd (handleQuery (Scenario.server Scenario.pool)
                      (Some (Scenario.queryArgs "DELETE FROM t" (Val 5%Z)))
                      idle))
     = [{| text := "DELETE FROM t"; values := [] |}].
Proof.
  split.
  - apply (C5_identity_outside_plain_select (Scenario.server Scenario.pool)
             (Scenario.queryArgs "select a from t limit 3" (Val 5%Z))
             "select a from t limit 3" idle eq_refl eq_refl).
    left. exists "select a from t ", "limit", " 3". split; reflexivity.
  - apply (C5_identity_outside_plain_select (Scenario.server Scenario.pool)
             (Scenario.queryArgs "DELETE FROM t" (Val 5%Z))
             "DELETE FROM t" idle eq_refl eq_refl).
    right. reflexivity.
Defined.

(** The effective row limit: the request's [maxRows] when it holds a
    non-zero number, the configured default in every other case. *)
Lemma limitRows_cases (self : Server.t) (a : Args.t) :
  limitRows self a
  = match Args.maxRows a with
    | Val n => if (n =? 0)%Z then maxRows (config self) else n
    | _ => maxRows (config self)
    end.
Proof.
  unfold limitRows, or_else, truthy, truthy_number.
  destruct (Args.maxRows a) as [| |n]; try reflexivity.
  now destruct (n =? 0)%Z.
Qed.

(** Without [POSTGRES_MAX_ROWS] the configured default is 100. *)
Lemma defaultConfig_maxRows_unset (env : ProcessEnv) :
  POSTGRES_MAX_ROWS env = Undefined -> maxRows (defaultConfig env) = 100%Z.
Proof. intros E. unfold defaultConfig. simpl. now rewrite E. Qed.

(** Neither the request nor the environment can make the effective limit
    zero. *)
Lemma limitRows_nonzero (env : ProcessEnv) (p : Pool) (a : Args.t) :
  limitRows {| config := defaultConfig env; pool := p |} a <> 0%Z.
Proof.
  rewrite limitRows_cases. cbn [config maxRows defaultConfig].
  assert (D : nan_or (parseInt (POSTGRES_MAX_ROWS env)) 100 <> 0%Z).
  { unfold nan_or, truthy, truthy_number.
    destruct (parseInt _) as [|k]; [discriminate|].
    destruct (Z.eqb_spec k 0); [discriminate|assumption]. }
  destruct (Args.maxRows a) as [| |n]; try exact D.
  destruct (Z.eqb_spec n 0); [exact D|assumption].
Qed.

(** C2, at [query({ query: "SELECT * FROM orders", maxRows: 0 })] with no
    [POSTGRES_MAX_ROWS] set: the request supplies [maxRows = 0], the
    effective limit is the default 100, and the statement executed is
    "SELECT * FROM orders LIMIT 100", reported with [wasLimited = true] and
    [limitApplied = 100]. *)
Theorem C2_zero_maxRows_takes_default :
  let self := Scenario.server Scenario.pool in
  let a := Scenario.queryArgs "SELECT * FROM orders" (Val 0%Z) in
  let run := handleQuery self (Some a) idle in
  Args.maxRows a = Val 0%Z
  /\ maxRows (config self) = 100%Z
  /\ limitRows self a = 100%Z
  /\ executed (snd run)
     = [{| text := "SELECT * FROM orders LIMIT 100"; values := [] |}]
  /\ exists resp,
       fst run = Normal (QuerySuccess resp)
       /\ QueryOk.wasLimited (QueryOk.metadata resp) = true
       /\ QueryOk.limitApplied (QueryOk.metadata resp) = 100%Z.
Proof.
  cbv zeta. repeat (split; [reflexivity|]).
  eexists. split; [reflexivity|]. split; reflexivity.
Qed.

(** C10.  Two query requests with the same [query] and [maxRows] send the
    same statements, whatever their [schema] and [context]; both return an
    envelope, and the second is the first with its echoed [schema] and
    [context] replaced. *)
Theorem C10_schema_context_not_in_statement (self : Server.t)
    (a1 a2 : Args.t) (s : PoolState) :
  Args.query a1 = Args.query a2 ->
  Args.maxRows a1 = Args.maxRows a2 ->
  let run1 := handleQuery self (Some a1) s in
  let run2 := handleQuery self (Some a2) s in
  executed (snd run1) = executed (snd run2)
  /\ exists r1 r2,
       fst run1 = Normal r1 /\ fst run2 = Normal r2
       /\ r2 = withSchemaContext (targetSchema self a2)
                 (targetContext self a2) r1.
Proof.
  intros Hq Hm run1 run2. subst run1 run2. run_handler.
  unfold limitRows. rewrite Hq, Hm.
  destruct (connecting (pool self)); simpl.
  - split; [reflexivity|]. eexists _, _. repeat split.
  - destruct (Args.query a2) as [| |q]; simpl;
      try (split; [reflexivity|]; eexists _, _; repeat split).
    destruct (freeform _ _); simpl;
      (split; [reflexivity|]; eexists _, _; repeat split).
Qed.

Lemma C10_witness :
  executed (snd (handleQuery (Scenario.server Scenario.pool)
                   (Some (Scenario.queryArgs "SELECT * FROM orders"
                            (Val 5%Z)))
                   idle))
  = executed (snd (handleQuery (Scenario.server Scenario.pool)
                     (Some {| Args.query := Val "SELECT * FROM orders";
                              Args.schema := Val "sales";
                              Args.context := Val "'; DROP TABLE orders; --";
                              Args.maxRows := Val 5%Z;
                              Args.tableName := Undefined;
                              Args.pattern := Undefined |})
                     idle)).
Proof.
  exact (proj1 (C10_schema_context_not_in_statement
                  (Scenario.server Scenario.pool)
                  (Scenario.queryArgs "SELECT * FROM orders" (Val 5%Z))
                  {| Args.query := Val "SELECT * FROM orders";
                     Args.schema := Val "sales";
                     Args.context := Val "'; DROP TABLE orders; --";
                     Args.maxRows := Val 5%Z;
                     Args.tableName := Undefined;
                     Args.pattern := Undefined |}
                  idle eq_refl eq_refl)).
Defined.

(** ** The pool *)

(** C3.  Over a call of any of the three handlers the count of clients
    handed out and the count of releases advance by the same number: 1 when
    the request has arguments and [pool.connect()] resolves, 0 otherwise,
    whatever the database answers to the statement. *)
Theorem C3_release_per_acquisition (self : Server.t)
    (args : option Args.t) (s : PoolState) :
  let k :=
    match args, connecting (pool self) with
    | Some _, None => 1
    | _, _ => 0
    end in
  (acquired (snd (handleQuery self args s)) = acquired s + k
   /\ released (snd (handleQuery self args s)) = released s + k)
  /\ (acquired (snd (handleDescribeTable self args s)) = acquired s + k
      /\ released (snd (handleDescribeTable self args s)) = released s + k)
  /\ (acquired (snd (handleListTables self args s)) = acquired s + k
      /\ released (snd (handleListTables self args s)) = released s + k).
Proof.
  cbv zeta.
  destruct args as [a|]; [|simpl; repeat split; lia].
  run_handler.
  destruct (connecting (pool self)); simpl; [repeat split; lia|].
  repeat split.
  1,2: destruct (Args.query a); simpl; try lia;
       destruct (freeform _ _); simpl; lia.
  1,2: destruct (columns _ _); simpl; lia.
  1,2: destruct (tables _ _); simpl; lia.
Qed.


(** ** The dispatcher and the failure envelopes *)

Lemma errorFields_id (e : Error) : errorFields e = e.
Proof. now destruct e. Qed.

Lemma callTool_unknown (self : Server.t) (name : string)
    (args : option Args.t) (s : PoolState) :
  name <> "query" -> name <> "describe_table" -> name <> "list_tables" ->
  callTool self name args s
  = (Throw (plainError ("Unknown tool: " ++ name)), s).
Proof.
  intros H1 H2 H3. unfold callTool.
  apply String.eqb_neq in H1, H2, H3. now rewrite H1, H2, H3.
Qed.

(** C4.  A tool name other than "query", "describe_table" and
    "list_tables" makes the dispatcher throw [Unknown tool: name], with the
    pool untouched.  Inside a handler, an error raised by [pool.connect()]
    or by the statement comes back as a returned envelope with
    [success = false] whose [error] carries that error's message, code,
    detail and hint; a handler given arguments never throws. *)
Theorem C4_unknown_tool_thrown_handler_errors_absorbed (self : Server.t)
    (name : string) (args : option Args.t) (s : PoolState) :
  (name <> "query" -> name <> "describe_table" -> name <> "list_tables" ->
   callTool self name args s
   = (Throw (plainError ("Unknown tool: " ++ name)), s))
  /\ (forall a e,
        connecting (pool self) = Some e ->
        fst (handleQuery self (Some a) s)
        = Normal (QueryFailure
            {| QueryErr.success := false;
               QueryErr.error := e;
               QueryErr.query := Args.query a;
               QueryErr.schema := targetSchema self a;
               QueryErr.context := targetContext self a |})
        /\ fst (handleDescribeTable self (Some a) s)
           = Normal (DescribeFailure
               {| DescribeErr.success := false;
                  DescribeErr.error := e;
                  DescribeErr.table :=
                    {| DescribeErr.name := Args.tableName a;
                       DescribeErr.schema := targetSchema self a |} |})
        /\ fst (handleListTables self (Some a) s)
           = Normal (ListFailure
               {| ListErr.success := false;
                  ListErr.error := e;
                  ListErr.schema := targetSchema self a;
                  ListErr.pattern := or_null (Args.pattern a) |}))
  /\ (forall a e,
        connecting (pool self) = None ->
        (forall q,
           Args.query a = Val q ->
           freeform (pool self)
             {| text := finalQuery q (limitRows self a); values := [] |}
           = inl e ->
           fst (handleQuery self (Some a) s)
           = Normal (QueryFailure
               {| QueryErr.success := false;
                  QueryErr.error := e;
                  QueryErr.query := Args.query a;
                  QueryErr.schema := targetSchema self a;
                  QueryErr.context := targetContext self a |}))
        /\ (columns (pool self)
              {| text := describeTableQuery;
                 values := [Val (targetSchema self a); Args.tableName a] |}
            = inl e ->
            fst (handleDescribeTable self (Some a) s)
            = Normal (DescribeFailure
                {| DescribeErr.success := false;
                   DescribeErr.error := e;
                   DescribeErr.table :=
                     {| DescribeErr.name := Args.tableName a;
                        DescribeErr.schema := targetSchema self a |} |}))
        /\ (tables (pool self)
              (listTablesStatement (targetSchema self a) (Args.pattern a))
            = inl e ->
            fst (handleListTables self (Some a) s)
            = Normal (ListFailure
                {| ListErr.success := false;
                   ListErr.error := e;
                   ListErr.schema := targetSchema self a;
                   ListErr.pattern := or_null (Args.pattern a) |})))
  /\ (forall a,
        exists r1 r2 r3,
          fst (handleQuery self (Some a) s) = Normal r1
          /\ fst (handleDescribeTable self (Some a) s) = Normal r2
          /\ fst (handleListTables self (Some a) s) = Normal r3).
Proof.
  split; [apply callTool_unknown|].
  split; [|split].
  - intros a e Hc. run_handler. rewrite Hc. simpl.
    rewrite errorFields_id. repeat split.
  - intros a e Hc. run_handler. rewrite Hc. simpl. repeat split.
    + intros q Hq He. rewrite Hq. simpl. rewrite He. simpl.
      now rewrite errorFields_id.
    + intros He. rewrite He. simpl. now rewrite errorFields_id.
    + intros He. rewrite He. simpl. now rewrite errorFields_id.
  - intros a. run_handler.
    destruct (connecting (pool self)); simpl.
    + eexists _, _, _. repeat split.
    + destruct (columns _ _), (tables _ _); simpl;
        (destruct (Args.query a); simpl;
         [| |destruct (freeform _ _); simpl]);
        eexists _, _, _; repeat split.
Qed.

(** An unregistered tool; a pool that cannot connect; a statement that
    fails. *)
Lemma C4_witness :
  callTool (Scenario.server Scenario.pool) "drop_table" (Some Scenario.noArgs)
    idle
  = (Throw (plainError "Unknown tool: drop_table"), idle)
  /\ fst (handleQuery
            (Scenario.server (Scenario.unreachable Scenario.divisionByZero))
            (Some (Scenario.queryArgs "SELECT 1/0" Undefined)) idle)
     = Normal (QueryFailure
         {| QueryErr.success := false;
            QueryErr.error := Scenario.divisionByZero;
            QueryErr.query := Val "SELECT 1/0";
            QueryErr.schema := "public";
            QueryErr.context := "" |})
  /\ fst (handleQuery
            (Scenario.server (Scenario.rejecting Scenario.divisionByZero))
            (Some (Scenario.queryArgs "SELECT 1/0" Undefined)) idle)
     = Normal (QueryFailure
         {| QueryErr.success := false;
            QueryErr.error := Scenario.divisionByZero;
            QueryErr.query := Val "SELECT 1/0";
            QueryErr.schema := "public";
            QueryErr.context := "" |}).
Proof.
  split; [|split].
  - apply (proj1 (C4_unknown_tool_thrown_handler_errors_absorbed
                    (Scenario.server Scenario.pool) "drop_table"
                    (Some Scenario.noArgs) idle)); discriminate.
  - apply (proj1 (proj2 (C4_unknown_tool_thrown_handler_errors_absorbed
                    (Scenario.server
                       (Scenario.unreachable Scenario.divisionByZero))
                    "query" None idle))
             (Scenario.queryArgs "SELECT 1/0" Undefined)
             Scenario.divisionByZero eq_refl).
  - apply (proj1 (proj1 (proj2 (proj2
             (C4_unknown_tool_thrown_handler_errors_absorbed
                (Scenario.server
                   (Scenario.rejecting Scenario.divisionByZero))
                "query" None idle)))
             (Scenario.queryArgs "SELECT 1/0" Undefined)
             Scenario.divisionByZero eq_refl)
             "SELECT 1/0" eq_refl eq_refl).
Defined.


(** ** handleDescribeTable *)

Lemma handleDescribeTable_success (self : Server.t) (a : Args.t)
    (s : PoolState) (r : Result ColumnRow) :
  connecting (pool self) = None ->
  columns (pool self)
    {| text := describeTableQuery;
       values := [Val (targetSchema self a); Args.tableName a] |} = inr r ->
  fst (handleDescribeTable self (Some a) s)
  = Normal (DescribeSuccess
      {| DescribeOk.success := true;
         DescribeOk.table :=
           {| DescribeOk.name := Args.tableName a;
              DescribeOk.schema := targetSchema self a;
              DescribeOk.fullName :=
                targetSchema self a ++ "." ++ toString (Args.tableName a) |};
         DescribeOk.columns := mapi columnOf (rows r);
         DescribeOk.metadata :=
           {| DescribeOk.columnCount := length (rows r);
              DescribeOk.found := (0 <? length (rows r))%nat |} |}).
Proof.
  intros Hc Hr. run_handler. rewrite Hc. simpl. rewrite Hr. reflexivity.
Qed.

Lemma nth_error_mapi_from {A B} (f : A -> nat -> B) (l : list A) :
  forall k i,
    nth_error (mapi_from k f l) i
    = option_map (fun x => f x (k + i)) (nth_error l i).
Proof.
  induction l as [|x l IH]; intros k i.
  - now destruct i.
  - destruct i as [|i]; simpl.
    + now rewrite Nat.add_0_r.
    + rewrite IH. now rewrite Nat.add_succ_comm.
Qed.

Lemma nth_error_mapi {A B} (f : A -> nat -> B) (l : list A) (i : nat) :
  nth_error (mapi f l) i = option_map (fun x => f x i) (nth_error l i).
Proof. unfold mapi. now rewrite nth_error_mapi_from. Qed.

Lemma length_mapi_from {A B} (f : A -> nat -> B) (l : list A) :
  forall k, length (mapi_from k f l) = length l.
Proof.
  induction l as [|x l IH]; intros k; simpl; [|rewrite IH]; reflexivity.
Qed.

(** C7.  When the column statement succeeds, [describe_table] returns a
    success envelope whose [found] is true exactly when at least one row
    came back; with zero rows the envelope has [success = true], no
    columns, [columnCount = 0] and [found = false]. *)
Theorem C7_no_columns_is_success (self : Server.t) (a : Args.t)
    (s : PoolState) (r : Result ColumnRow) :
  connecting (pool self) = None ->
  columns (pool self)
    {| text := describeTableQuery;
       values := [Val (targetSchema self a); Args.tableName a] |} = inr r ->
  exists resp,
    fst (handleDescribeTable self (Some a) s) = Normal (DescribeSuccess resp)
    /\ DescribeOk.success resp = true
    /\ (DescribeOk.found (DescribeOk.metadata resp) = true
        <-> 1 <= length (rows r))
    /\ (rows r = [] ->
        DescribeOk.columns resp = []
        /\ DescribeOk.columnCount (DescribeOk.metadata resp) = 0
        /\ DescribeOk.found (DescribeOk.metadata resp) = false).
Proof.
  intros Hc Hr. eexists. split.
  - apply handleDescribeTable_success; eassumption.
  - simpl. split; [reflexivity|]. split.
    + apply Nat.ltb_lt.
    + intros E. rewrite E. repeat split.
Qed.

(** [describe_table({ tableName: "invoices", schema: "public" })] on a
    database without that table. *)
Lemma C7_witness :
  exists resp,
    fst (handleDescribeTable (Scenario.server Scenario.pool)
           (Some (Scenario.describeArgs "invoices" "public")) idle)
    = Normal (DescribeSuccess resp)
    /\ DescribeOk.success resp = true
    /\ DescribeOk.columns resp = []
    /\ DescribeOk.columnCount (DescribeOk.metadata resp) = 0
    /\ DescribeOk.found (DescribeOk.metadata resp) = false.
Proof.
  destruct (C7_no_columns_is_success (Scenario.server Scenario.pool)
              (Scenario.describeArgs "invoices" "public") idle
              (Scenario.selected []) eq_refl eq_refl)
    as (resp & E & Hs & _ & H0).
  exists resp. split; [exact E|]. split; [exact Hs|]. apply H0. reflexivity.
Defined.

(** [fullType] is the base type, then the length in parentheses when
    [character_maximum_length] is a non-zero number, then the precision,
    with the scale after a comma when it is a non-zero number, in
    parentheses when [numeric_precision] is a non-zero number. *)
Lemma fullType_suffixes (row : ColumnRow) :
  exists lengthSuffix precisionSuffix,
    fullType row = data_type row ++ lengthSuffix ++ precisionSuffix
    /\ (forall n, character_maximum_length row = Some n -> n <> 0%Z ->
        lengthSuffix = "(" ++ numberToString n ++ ")")
    /\ (character_maximum_length row = None
        \/ character_maximum_length row = Some 0%Z -> lengthSuffix = "")
    /\ (forall p, numeric_precision row = Some p -> p <> 0%Z ->
        (forall sc, numeric_scale row = Some sc -> sc <> 0%Z ->
           precisionSuffix
           = "(" ++ numberToString p ++ "," ++ numberToString sc ++ ")")
        /\ (numeric_scale row = None \/ numeric_scale row = Some 0%Z ->
            precisionSuffix = "(" ++ numberToString p ++ ")"))
    /\ (numeric_precision row = None
        \/ numeric_precision row = Some 0%Z -> precisionSuffix = "").
Proof.
  unfold fullType, truthy, truthy_number.
  eexists _, _. split; [reflexivity|].
  destruct (character_maximum_length row) as [n|];
    destruct (numeric_precision row) as [p|];
    destruct (numeric_scale row) as [sc|];
    repeat match goal with
           | |- context [(?x =? 0)%Z] => destruct (Z.eqb_spec x 0); subst
           end; simpl;
    repeat split; intros;
    repeat match goal with
           | H : Some _ = Some _ |- _ => injection H as H; subst
           | H : _ \/ _ |- _ => destruct H
           end;
    try discriminate; try congruence; try reflexivity.
Qed.


(** C8, amended.  Each row of the column statement's result becomes the
    column descriptor at the same index, with [position] the index plus
    one, [nullable] true exactly when [is_nullable] is "YES", and
    [fullType] the base type followed by the optional length suffix and the
    optional precision-and-scale suffix.  For the [users] table of the
    scenario, whose [integer] column PostgreSQL reports with precision 32
    and scale 0, the full types are "integer(32)", "character varying(50)"
    and "timestamp without time zone", in that order, with
    [columnCount = 3]. *)
Theorem C8_column_descriptors (self : Server.t) (a : Args.t)
    (s : PoolState) (r : Result ColumnRow) :
  connecting (pool self) = None ->
  columns (pool self)
    {| text := describeTableQuery;
       values := [Val (targetSchema self a); Args.tableName a] |} = inr r ->
  exists resp,
    fst (handleDescribeTable self (Some a) s) = Normal (DescribeSuccess resp)
    /\ DescribeOk.columnCount (DescribeOk.metadata resp) = length (rows r)
    /\ length (DescribeOk.columns resp) = length (rows r)
    /\ (forall i row,
          nth_error (rows r) i = Some row ->
          exists col lengthSuffix precisionSuffix,
            nth_error (DescribeOk.columns resp) i = Some col
            /\ DescribeOk.position col = i + 1
            /\ (DescribeOk.nullable col = true <-> is_nullable row = "YES")
            /\ DescribeOk.fullType (DescribeOk.typeInfo col)
               = data_type row ++ lengthSuffix ++ precisionSuffix
            /\ (forall n, character_maximum_length row = Some n -> n <> 0%Z ->
                lengthSuffix = "(" ++ numberToString n ++ ")")
            /\ (character_maximum_length row = None
                \/ character_maximum_length row = Some 0%Z ->
                lengthSuffix = "")
            /\ (forall p, numeric_precision row = Some p -> p <> 0%Z ->
                (forall sc, numeric_scale row = Some sc -> sc <> 0%Z ->
                   precisionSuffix
                   = "(" ++ numberToString p ++ ","
                     ++ numberToString sc ++ ")")
                /\ (numeric_scale row = None
                    \/ numeric_scale row = Some 0%Z ->
                    precisionSuffix = "(" ++ numberToString p ++ ")"))
            /\ (numeric_precision row = None
                \/ numeric_precision row = Some 0%Z ->
                precisionSuffix = ""))
    /\ (rows r = Scenario.usersColumns ->
        map (fun col => DescribeOk.fullType (DescribeOk.typeInfo col))
            (DescribeOk.columns resp)
        = ["integer(32)"; "character varying(50)";
           "timestamp without time zone"]
        /\ map DescribeOk.position (DescribeOk.columns resp) = [1; 2; 3]
        /\ map DescribeOk.nullable (DescribeOk.columns resp)
           = [false; true; true]
        /\ DescribeOk.columnCount (DescribeOk.metadata resp) = 3).
Proof.
  intros Hc Hr. eexists. split.
  { apply handleDescribeTable_success; eassumption. }
  simpl. split; [reflexivity|]. split; [apply length_mapi_from|]. split.
  - intros i row Hi.
    destruct (fullType_suffixes row) as (ls & ps & Hf & Hrest).
    exists (columnOf row i), ls, ps.
    split; [rewrite nth_error_mapi, Hi; reflexivity|].
    split; [reflexivity|].
    split; [apply String.eqb_eq|].
    split; [exact Hf|exact Hrest].
  - intros E. rewrite E. repeat split.
Qed.

(** [describe_table({ tableName: "users", schema: "public" })]. *)
Lemma C8_witness :
  exists resp,
    fst (handleDescribeTable (Scenario.server Scenario.pool)
           (Some (Scenario.describeArgs "users" "public")) idle)
    = Normal (DescribeSuccess resp)
    /\ map (fun col => DescribeOk.fullType (DescribeOk.typeInfo col))
           (DescribeOk.columns resp)
       = ["integer(32)"; "character varying(50)";
          "timestamp without time zone"]
    /\ DescribeOk.columnCount (DescribeOk.metadata resp) = 3.
Proof.
  destruct (C8_column_descriptors (Scenario.server Scenario.pool)
              (Scenario.describeArgs "users" "public") idle
              (Scenario.selected Scenario.usersColumns) eq_refl eq_refl)
    as (resp & E & _ & _ & _ & Hu).
  exists resp. split; [exact E|].
  destruct (Hu eq_refl) as (Ht & _ & _ & Hn). split; [exact Ht|exact Hn].
Defined.

(** C8 as stated fails on the scenario: the full types returned for
    [users] are not "integer", "character varying(50)",
    "timestamp without time zone". *)
Lemma C8_counterexample :
  exists resp,
    fst (handleDescribeTable (Scenario.server Scenario.pool)
           (Some (Scenario.describeArgs "users" "public")) idle)
    = Normal (DescribeSuccess resp)
    /\ map (fun col => DescribeOk.fullType (DescribeOk.typeInfo col))
           (DescribeOk.columns resp)
       <> ["integer"; "character varying(50)";
           "timestamp without time zone"].
Proof.
  eexists. split; [reflexivity|]. simpl. discriminate.
Qed.


(** ** handleListTables *)

Lemma handleListTables_executed (self : Server.t) (a : Args.t)
    (s : PoolState) :
  connecting (pool self) = None ->
  executed (snd (handleListTables self (Some a) s))
  = (executed s
     ++ [listTablesStatement (targetSchema self a) (Args.pattern a)])%list.
Proof.
  intros Hc. run_handler. rewrite Hc. simpl.
  destruct (tables _ _); reflexivity.
Qed.

Lemma handleListTables_success (self : Server.t) (a : Args.t)
    (s : PoolState) (r : Result TableRow) :
  connecting (pool self) = None ->
  tables (pool self)
    (listTablesStatement (targetSchema self a) (Args.pattern a)) = inr r ->
  exists resp,
    fst (handleListTables self (Some a) s) = Normal (ListSuccess resp)
    /\ ListOk.success resp = true
    /\ ListOk.pattern resp = or_null (Args.pattern a)
    /\ ListOk.filtered (ListOk.metadata resp) = not_null (Args.pattern a).
Proof.
  intros Hc Hr. run_handler. rewrite Hc. simpl. rewrite Hr. simpl.
  eexists. split; [reflexivity|]. repeat split.
Qed.

Lemma truthy_pattern_cases (p : slot string) :
  (exists v, p = Val v /\ v <> "" /\ truthy p = true)
  \/ ((p = Undefined \/ p = Null \/ p = Val "") /\ truthy p = false).
Proof.
  destruct p as [| |v]; [right; auto | right; auto |].
  destruct (String.eqb_spec v "") as [E|N].
  - subst. right. auto.
  - left. exists v. repeat split; [assumption|].
    unfold truthy, truthy_slot, truthy, truthy_string.
    apply String.eqb_neq in N. now rewrite N.
Qed.

(** C6, amended.  [list_tables] sends the statement with the
    [LIKE $2] condition and the pattern as second bound value when the
    pattern argument is a non-empty string, and the statement without it,
    with the schema as only bound value, when the pattern is missing, null
    or empty; the success envelope's [pattern] is the pattern in the first
    case and null in the second. *)
Theorem C6_like_iff_nonempty_pattern (self : Server.t) (a : Args.t)
    (s : PoolState) :
  connecting (pool self) = None ->
  exists st,
    executed (snd (handleListTables self (Some a) s))
    = (executed s ++ [st])%list
    /\ (forall v, Args.pattern a = Val v -> v <> "" ->
        text st = listTablesQuery ++ " AND table_name LIKE $2"
                  ++ " ORDER BY table_name"
        /\ includes "LIKE" (text st) = true
        /\ values st = [Val (targetSchema self a); Val v])
    /\ (Args.pattern a = Undefined \/ Args.pattern a = Null
        \/ Args.pattern a = Val "" ->
        text st = listTablesQuery ++ " ORDER BY table_name"
        /\ includes "LIKE" (text st) = false
        /\ values st = [Val (targetSchema self a)])
    /\ (forall r, tables (pool self) st = inr r ->
        exists resp,
          fst (handleListTables self (Some a) s) = Normal (ListSuccess resp)
          /\ (forall v, Args.pattern a = Val v -> v <> "" ->
              ListOk.pattern resp = Some v)
          /\ (Args.pattern a = Undefined \/ Args.pattern a = Null
              \/ Args.pattern a = Val "" ->
              ListOk.pattern resp = None)).
Proof.
  intros Hc.
  exists (listTablesStatement (targetSchema self a) (Args.pattern a)).
  split; [apply handleListTables_executed; exact Hc|].
  unfold listTablesStatement.
  destruct (truthy_pattern_cases (Args.pattern a))
    as [(v & Ev & Nv & Ht)|(Hp & Ht)]; rewrite Ht.
  - split; [|split].
    + intros v' Ev' _. rewrite Ev in Ev'. injection Ev' as <-.
      rewrite Ev. cbn [text values app].
      split; [apply append_assoc|]. split; reflexivity.
    + intros [E|[E|E]]; rewrite E in Ev; try discriminate.
      injection Ev as <-. now elim Nv.
    + intros r Hr.
      destruct (handleListTables_success self a s r Hc)
        as (resp & E & _ & Ep & _).
      { unfold listTablesStatement. rewrite Ht. exact Hr. }
      exists resp. split; [exact E|]. rewrite Ep. split.
      * intros v' Ev' _. rewrite Ev' . unfold or_null.
        rewrite Ev' in Ht. unfold truthy, truthy_slot in Ht. now rewrite Ht.
      * intros [E'|[E'|E']]; rewrite E'; reflexivity.
  - split; [|split].
    + intros v Ev Nv. exfalso.
      destruct Hp as [E|[E|E]]; rewrite E in Ev; try discriminate.
      injection Ev as <-. now elim Nv.
    + intros _. cbn [text values]. repeat split.
    + intros r Hr.
      destruct (handleListTables_success self a s r Hc)
        as (resp & E & _ & Ep & _).
      { unfold listTablesStatement. rewrite Ht. exact Hr. }
      exists resp. split; [exact E|]. rewrite Ep. split.
      * intros v Ev Nv. exfalso.
        destruct Hp as [E'|[E'|E']]; rewrite E' in Ev; try discriminate.
        injection Ev as <-. now elim Nv.
      * intros [E'|[E'|E']]; rewrite E'; reflexivity.
Qed.


(** [list_tables({ schema: "public", pattern: "%user%" })]. *)
Lemma C6_witness :
  exists st resp,
    executed (snd (handleListTables (Scenario.server Scenario.pool)
                     (Some (Scenario.listArgs "public" (Val "%user%"))) idle))
    = [st]
    /\ text st = listTablesQuery ++ " AND table_name LIKE $2"
                 ++ " ORDER BY table_name"
    /\ values st = [Val "public"; Val "%user%"]
    /\ fst (handleListTables (Scenario.server Scenario.pool)
              (Some (Scenario.listArgs "public" (Val "%user%"))) idle)
       = Normal (ListSuccess resp)
    /\ ListOk.pattern resp = Some "%user%".
Proof.
  destruct (C6_like_iff_nonempty_pattern (Scenario.server Scenario.pool)
              (Scenario.listArgs "public" (Val "%user%")) idle eq_refl)
    as (st & He & Hlike & _ & Hresp).
  destruct (Hlike "%user%" eq_refl) as (Ht & _ & Hv); [discriminate|].
  destruct (Hresp (Scenario.selected [Scenario.usersTable]))
    as (resp & E & Hp & _).
  { destruct st as [t v]. simpl in Ht, Hv. subst t v. reflexivity. }
  exists st, resp. split; [exact He|]. split; [exact Ht|].
  split; [exact Hv|]. split; [exact E|].
  apply (Hp "%user%" eq_refl). discriminate.
Defined.

(** C6 as stated fails at [list_tables({ schema: "public", pattern: "" })]:
    a pattern is supplied, yet no [LIKE] condition is sent, the envelope's
    [pattern] is null and [filtered] is true although no filter was
    applied; and at [list_tables({ schema: "public" })], with no pattern,
    [filtered] is true as well. *)
Lemma C6_counterexample :
  let server := Scenario.server Scenario.pool in
  let empty := handleListTables server
                 (Some (Scenario.listArgs "public" (Val ""))) idle in
  let none := handleListTables server
                (Some (Scenario.listArgs "public" Undefined)) idle in
  supplied (Args.pattern (Scenario.listArgs "public" (Val ""))) = true
  /\ executed (snd empty)
     = [{| text := listTablesQuery ++ " ORDER BY table_name";
           values := [Val "public"] |}]
  /\ (exists resp,
        fst empty = Normal (ListSuccess resp)
        /\ ListOk.pattern resp = None
        /\ ListOk.filtered (ListOk.metadata resp) = true)
  /\ supplied (Args.pattern (Scenario.listArgs "public" Undefined)) = false
  /\ executed (snd none)
     = [{| text := listTablesQuery ++ " ORDER BY table_name";
           values := [Val "public"] |}]
  /\ (exists resp,
        fst none = Normal (ListSuccess resp)
        /\ ListOk.filtered (ListOk.metadata resp) = true).
Proof.
  cbv zeta. split; [reflexivity|]. split; [reflexivity|].
  split; [eexists; split; [reflexivity|split; reflexivity]|].
  split; [reflexivity|]. split; [reflexivity|].
  eexists; split; reflexivity.
Qed.

Lemma handleDescribeTable_executed (self : Server.t) (a : Args.t)
    (s : PoolState) :
  connecting (pool self) = None ->
  executed (snd (handleDescribeTable self (Some a) s))
  = (executed s
     ++ [{| text := describeTableQuery;
            values := [Val (targetSchema self a); Args.tableName a] |}])%list.
Proof.
  intros Hc. run_handler. rewrite Hc. simpl.
  destruct (columns _ _); reflexivity.
Qed.

(** C9, amended.  [describe_table] always sends the one text
    [describeTableQuery], with the schema and the table name as its bound
    values; [list_tables] binds the schema, and the pattern when it is
    truthy, and any two calls whose patterns are both truthy (non-empty
    strings) or both falsy (missing, null or empty) send the same text. *)
Theorem C9_arguments_only_as_bound_values (self self' : Server.t)
    (a a' : Args.t) (s s' : PoolState) :
  connecting (pool self) = None ->
  connecting (pool self') = None ->
  exists d d' l l',
    executed (snd (handleDescribeTable self (Some a) s))
    = (executed s ++ [d])%list
    /\ executed (snd (handleDescribeTable self' (Some a') s'))
       = (executed s' ++ [d'])%list
    /\ executed (snd (handleListTables self (Some a) s))
       = (executed s ++ [l])%list
    /\ executed (snd (handleListTables self' (Some a') s'))
       = (executed s' ++ [l'])%list
    /\ text d = describeTableQuery
    /\ text d' = text d
    /\ values d = [Val (targetSchema self a); Args.tableName a]
    /\ values l
       = (Val (targetSchema self a)
          :: (if truthy (Args.pattern a) then [Args.pattern a] else []))%list
    /\ (truthy (Args.pattern a) = truthy (Args.pattern a') ->
        text l' = text l).
Proof.
  intros Hc Hc'.
  eexists _, _, _, _.
  split; [apply handleDescribeTable_executed; exact Hc|].
  split; [apply handleDescribeTable_executed; exact Hc'|].
  split; [apply handleListTables_executed; exact Hc|].
  split; [apply handleListTables_executed; exact Hc'|].
  cbn [text values]. split; [reflexivity|]. split; [reflexivity|].
  split; [reflexivity|]. unfold listTablesStatement. split.
  - destruct (truthy (Args.pattern a)); reflexivity.
  - intros E. rewrite <- E.
    destruct (truthy (Args.pattern a)); reflexivity.
Qed.

(** Two [list_tables] calls with different schemas and patterns, on
    different databases. *)
Lemma C9_witness :
  exists l l',
    executed (snd (handleListTables (Scenario.server Scenario.pool)
                     (Some (Scenario.listArgs "public" (Val "%user%"))) idle))
    = [l]
    /\ executed (snd (handleListTables
                        (Scenario.server
                           (Scenario.rejecting Scenario.divisionByZero))
                        (Some (Scenario.listArgs "sales" (Val "inv_%"))) idle))
       = [l']
    /\ text l' = text l.
Proof.
  destruct (C9_arguments_only_as_bound_values
              (Scenario.server Scenario.pool)
              (Scenario.server
                 (Scenario.rejecting Scenario.divisionByZero))
              (Scenario.listArgs "public" (Val "%user%"))
              (Scenario.listArgs "sales" (Val "inv_%"))
              idle idle eq_refl eq_refl)
    as (d & d' & l & l' & _ & _ & Hl & Hl' & _ & _ & _ & _ & Ht).
  exists l, l'. split; [exact Hl|]. split; [exact Hl'|].
  apply Ht. reflexivity.
Defined.

(** C9 as stated fails: [list_tables({ schema: "public", pattern: "" })]
    and [list_tables({ schema: "public", pattern: "%user%" })] both supply
    a pattern, yet send different texts. *)
Lemma C9_counterexample :
  exists l l',
    executed (snd (handleListTables (Scenario.server Scenario.pool)
                     (Some (Scenario.listArgs "public" (Val ""))) idle))
    = [l]
    /\ executed (snd (handleListTables (Scenario.server Scenario.pool)
                        (Some (Scenario.listArgs "public" (Val "%user%")))
                        idle))
       = [l']
    /\ supplied (Args.pattern (Scenario.listArgs "public" (Val "")))
       = supplied (Args.pattern (Scenario.listArgs "public" (Val "%user%")))
    /\ text l <> text l'.
Proof.
  eexists _, _. split; [reflexivity|]. split; [reflexivity|].
  split; [reflexivity|]. vm_compute. discriminate.
Qed.

(** * Further properties of the handlers *)

(** ** The catalog and the dispatcher *)

Lemma handlers_return (self : Server.t) (a : Args.t) (s : PoolState) :
  (exists r, fst (handleQuery self (Some a) s) = Normal r)
  /\ (exists r, fst (handleDescribeTable self (Some a) s) = Normal r)
  /\ (exists r, fst (handleListTables self (Some a) s) = Normal r).
Proof.
  run_handler. destruct (connecting (pool self)); simpl.
  - repeat split; eexists; reflexivity.
  - repeat split.
    + destruct (Args.query a); simpl;
        [| |destruct (freeform _ _); simpl]; eexists; reflexivity.
    + destruct (columns _ _); simpl; eexists; reflexivity.
    + destruct (tables _ _); simpl; eexists; reflexivity.
Qed.

Lemma registered_names (name : string) :
  In name (map Tools.name Tools.tools)
  <-> name = "query" \/ name = "describe_table" \/ name = "list_tables".
Proof.
  simpl. split.
  - intros [H|[H|[H|[]]]]; auto.
  - intros [H|[H|H]]; auto.
Qed.

(** X1.  The dispatcher serves exactly the catalog: a call with an
    arguments object returns an envelope when the tool name is one the
    [ListTools] handler lists, and throws otherwise. *)
Theorem X1_dispatcher_serves_catalog (self : Server.t) (name : string)
    (a : Args.t) (s : PoolState) :
  (In name (map Tools.name Tools.tools) ->
   exists resp, fst (callTool self name (Some a) s) = Normal resp)
  /\ (~ In name (map Tools.name Tools.tools) ->
      callTool self name (Some a) s
      = (Throw (plainError ("Unknown tool: " ++ name)), s)).
Proof.
  destruct (handlers_return self a s) as (H1 & H2 & H3).
  split.
  - intros H. apply registered_names in H.
    destruct H as [E|[E|E]]; subst name; unfold callTool; simpl; assumption.
  - intros H. apply callTool_unknown; intros E; apply H;
      apply registered_names; auto.
Qed.

Lemma X1_witness :
  (exists resp,
     fst (callTool (Scenario.server Scenario.pool) "list_tables"
            (Some Scenario.noArgs) idle) = Normal resp)
  /\ callTool (Scenario.server Scenario.pool) "listTables"
       (Some Scenario.noArgs) idle
     = (Throw (plainError "Unknown tool: listTables"), idle).
Proof.
  split.
  - apply (proj1 (X1_dispatcher_serves_catalog (Scenario.server Scenario.pool)
                    "list_tables" Scenario.noArgs idle)).
    simpl. auto.
  - apply (proj2 (X1_dispatcher_serves_catalog (Scenario.server Scenario.pool)
                    "listTables" Scenario.noArgs idle)).
    simpl. intros [H|[H|[H|[]]]]; discriminate.
Defined.

(** X2.  A call without an arguments object ends in a thrown error for
    every tool name, the registered ones included, and the pool is not
    touched. *)
Theorem X2_no_arguments_throws (self : Server.t) (name : string)
    (s : PoolState) :
  exists e, callTool self name None s = (Throw e, s).
Proof.
  unfold callTool.
  destruct (name =? "query"); [eexists; reflexivity|].
  destruct (name =? "describe_table"); [eexists; reflexivity|].
  destruct (name =? "list_tables"); eexists; reflexivity.
Qed.

(** X3.  When [pool.connect()] rejects, a call leaves the pool as it
    found it: no client is counted, none released, no statement sent. *)
Theorem X3_rejected_connect_leaves_pool (self : Server.t) (name : string)
    (args : option Args.t) (s : PoolState) (e : Error) :
  connecting (pool self) = Some e ->
  snd (callTool self name args s) = s.
Proof.
  intros Hc. unfold callTool.
  destruct (name =? "query"); [|destruct (name =? "describe_table");
    [|destruct (name =? "list_tables"); [|reflexivity]]];
    (destruct args as [a|]; [|reflexivity]);
    run_handler; rewrite Hc; reflexivity.
Qed.

Lemma X3_witness :
  snd (callTool (Scenario.server (Scenario.unreachable Scenario.divisionByZero))
         "query" (Some (Scenario.queryArgs "SELECT 1" Undefined)) idle)
  = idle.
Proof.
  exact (X3_rejected_connect_leaves_pool
           (Scenario.server (Scenario.unreachable Scenario.divisionByZero))
           "query" (Some (Scenario.queryArgs "SELECT 1" Undefined)) idle
           Scenario.divisionByZero eq_refl).
Defined.

(** X4.  A call sends at most one statement, and only adds to the
    statements already sent. *)
Theorem X4_at_most_one_statement (self : Server.t) (name : string)
    (args : option Args.t) (s : PoolState) :
  exists sent,
    executed (snd (callTool self name args s)) = (executed s ++ sent)%list
    /\ length sent <= 1.
Proof.
  assert (none : exists sent,
            executed s = (executed s ++ sent)%list /\ length sent <= 1).
  { exists []. rewrite app_nil_r. split; [reflexivity|simpl; lia]. }
  assert (one : forall st,
            exists sent,
              (executed s ++ [st])%list = (executed s ++ sent)%list
              /\ length sent <= 1).
  { intros st. exists [st]. split; [reflexivity|simpl; lia]. }
  unfold callTool.
  destruct (name =? "query"); [|destruct (name =? "describe_table");
    [|destruct (name =? "list_tables"); [|exact none]]];
    (destruct args as [a|]; [|exact none]);
    run_handler; (destruct (connecting (pool self)); simpl;
                  [exact none|]).
  - destruct (Args.query a); simpl; try exact none.
    destruct (freeform _ _); simpl; apply one.
  - destruct (columns _ _); simpl; apply one.
  - destruct (tables _ _); simpl; apply one.
Qed.

(** ** Missing keys *)

(** X5.  A query call whose [query] key is missing or null still takes a
    client from the pool and releases it, sends no statement, and returns
    a failure envelope whose error has no driver code. *)
Theorem X5_query_without_text (self : Server.t) (a : Args.t)
    (s : PoolState) :
  Args.query a = Undefined \/ Args.query a = Null ->
  connecting (pool self) = None ->
  exists resp,
    handleQuery self (Some a) s
    = (Normal (QueryFailure resp),
       {| acquired := S (acquired s);
          released := S (released s);
          executed := executed s |})
    /\ QueryErr.success resp = false
    /\ code (QueryErr.error resp) = Undefined
    /\ QueryErr.query resp = Args.query a.
Proof.
  intros Hq Hc. run_handler. rewrite Hc.
  destruct Hq as [Hq|Hq]; rewrite Hq; simpl;
    eexists; (split; [reflexivity|]); repeat split.
Qed.

Lemma X5_witness :
  exists resp,
    handleQuery (Scenario.server Scenario.pool) (Some Scenario.noArgs) idle
    = (Normal (QueryFailure resp),
       {| acquired := 1; released := 1; executed := [] |})
    /\ QueryErr.success resp = false.
Proof.
  destruct (X5_query_without_text (Scenario.server Scenario.pool)
              Scenario.noArgs idle (or_introl eq_refl) eq_refl)
    as (resp & E & Hs & _).
  exists resp. split; [exact E|exact Hs].
Defined.

(** X6.  A describe_table call whose [tableName] key is missing is not
    refused: the column statement is sent with [undefined] bound as the
    table name, and a success envelope names the table
    "<schema>.undefined". *)
Theorem X6_describe_without_table_name (self : Server.t) (a : Args.t)
    (s : PoolState) :
  Args.tableName a = Undefined ->
  connecting (pool self) = None ->
  executed (snd (handleDescribeTable self (Some a) s))
  = (executed s
     ++ [{| text := describeTableQuery;
            values := [Val (targetSchema self a); Undefined] |}])%list
  /\ forall resp,
       fst (handleDescribeTable self (Some a) s)
       = Normal (DescribeSuccess resp) ->
       DescribeOk.fullName (DescribeOk.table resp)
       = targetSchema self a ++ ".undefined".
Proof.
  intros Ht Hc. split.
  - rewrite (handleDescribeTable_executed self a s Hc). now rewrite Ht.
  - run_handler. rewrite Hc, Ht. simpl.
    destruct (columns _ _); simpl; intros resp E; [discriminate|].
    injection E as <-. reflexivity.
Qed.

Lemma X6_witness :
  executed (snd (handleDescribeTable (Scenario.server Scenario.pool)
                   (Some Scenario.noArgs) idle))
  = [{| text := describeTableQuery;
        values := [Val "public"; Undefined] |}].
Proof.
  exact (proj1 (X6_describe_without_table_name
                  (Scenario.server Scenario.pool) Scenario.noArgs idle
                  eq_refl eq_refl)).
Defined.

(** ** The LIMIT suffix *)

Lemma includes_suffixed (q : string) (L : Z) :
  includes "LIMIT" (toUpperCase (q ++ " LIMIT " ++ numberToString L)) = true.
Proof.
  change (" LIMIT " ++ numberToString L)
    with (" " ++ "LIMIT" ++ " " ++ numberToString L).
  rewrite <- append_assoc, !toUpperCase_app.
  change (toUpperCase "LIMIT") with "LIMIT".
  apply includes_app.
Qed.

(** X7.  Augmenting is idempotent: the text the handler would execute for
    its own echoed [query] is that text again, so a LIMIT suffix is never
    appended twice. *)
Theorem X7_finalQuery_idempotent (q : string) (L : Z) :
  finalQuery (finalQuery q L) L = finalQuery q L.
Proof.
  destruct (needsLimit q L) eqn:E.
  - assert (F : finalQuery q L = q ++ " LIMIT " ++ numberToString L)
      by (unfold finalQuery; now rewrite E).
    rewrite F. unfold finalQuery, needsLimit. rewrite includes_suffixed.
    cbn [negb]. now rewrite andb_false_r.
  - assert (F : finalQuery q L = q) by (unfold finalQuery; now rewrite E).
    rewrite F. exact F.
Qed.

(** X8.  A negative [maxRows] switches the automatic LIMIT off: the text
    is executed as given, and the success envelope reports
    [wasLimited = false] with the negative number as [limitApplied]. *)
Theorem X8_negative_maxRows_unlimited (self : Server.t) (a : Args.t)
    (q : string) (n : Z) (s : PoolState) :
  Args.query a = Val q ->
  Args.maxRows a = Val n ->
  (n < 0)%Z ->
  connecting (pool self) = None ->
  executed (snd (handleQuery self (Some a) s))
  = (executed s ++ [{| text := q; values := [] |}])%list
  /\ forall resp,
       fst (handleQuery self (Some a) s) = Normal (QuerySuccess resp) ->
       QueryOk.query resp = q
       /\ QueryOk.wasLimited (QueryOk.metadata resp) = false
       /\ QueryOk.limitApplied (QueryOk.metadata resp) = n.
Proof.
  intros Hq Hm Hn Hc.
  assert (HL : limitRows self a = n).
  { rewrite limitRows_cases, Hm.
    destruct (Z.eqb_spec n 0); [lia|reflexivity]. }
  assert (HF : finalQuery q n = q).
  { unfold finalQuery, needsLimit.
    replace (0 <? n)%Z with false by (symmetry; apply Z.ltb_ge; lia).
    now rewrite andb_false_r. }
  split.
  - rewrite (handleQuery_executed self a q s Hq Hc), HL, HF. reflexivity.
  - run_handler. rewrite Hq, Hc. simpl. fold (limitRows self a).
    rewrite HL, HF.
    destruct (freeform _ _); simpl; intros resp E; [discriminate|].
    injection E as <-. simpl. rewrite String.eqb_refl. repeat split.
Qed.

Lemma X8_witness :
  executed (snd (handleQuery (Scenario.server Scenario.pool)
                   (Some (Scenario.queryArgs "SELECT * FROM orders"
                            (Val (-1)%Z)))
                   idle))
  = [{| text := "SELECT * FROM orders"; values := [] |}].
Proof.
  exact (proj1 (X8_negative_maxRows_unlimited (Scenario.server Scenario.pool)
                  (Scenario.queryArgs "SELECT * FROM orders" (Val (-1)%Z))
                  "SELECT * FROM orders" (-1)%Z idle
                  eq_refl eq_refl eq_refl eq_refl)).
Defined.

(** ** The envelopes *)



(** X10.  When a statement of the query tool fails, the failure envelope
    echoes the caller's text, not the text that was executed: the two
    differ exactly when the LIMIT suffix had been appended. *)
Theorem X10_failure_echoes_original (self : Server.t) (a : Args.t)
    (q : string) (s : PoolState) (e : Error) :
  Args.query a = Val q ->
  connecting (pool self) = None ->
  freeform (pool self)
    {| text := finalQuery q (limitRows self a); values := [] |} = inl e ->
  exists resp sent,
    fst (handleQuery self (Some a) s) = Normal (QueryFailure resp)
    /\ executed (snd (handleQuery self (Some a) s))
       = (executed s ++ [sent])%list
    /\ QueryErr.query resp = Val q
    /\ (text sent <> q <-> needsLimit q (limitRows self a) = true).
Proof.
  intros Hq Hc He. run_handler. rewrite Hq, Hc. simpl. rewrite He. simpl.
  eexists _, _. split; [reflexivity|]. split; [reflexivity|].
  split; [reflexivity|]. simpl.
  rewrite <- finalQuery_changed.
  destruct (String.eqb_spec q (finalQuery q (limitRows self a))) as [E|N];
    simpl; split; intros H; try reflexivity; try discriminate.
  - now elim H.
  - intros E. now elim N.
Qed.

Lemma X10_witness :
  exists resp sent,
    fst (handleQuery
           (Scenario.server (Scenario.rejecting Scenario.divisionByZero))
           (Some (Scenario.queryArgs "SELECT 1/0" Undefined)) idle)
    = Normal (QueryFailure resp)
    /\ executed (snd (handleQuery
                        (Scenario.server
                           (Scenario.rejecting Scenario.divisionByZero))
                        (Some (Scenario.queryArgs "SELECT 1/0" Undefined))
                        idle))
       = [sent]
    /\ QueryErr.query resp = Val "SELECT 1/0"
    /\ text sent <> "SELECT 1/0".
Proof.
  destruct (X10_failure_echoes_original
              (Scenario.server (Scenario.rejecting Scenario.divisionByZero))
              (Scenario.queryArgs "SELECT 1/0" Undefined)
              "SELECT 1/0" idle Scenario.divisionByZero
              eq_refl eq_refl eq_refl)
    as (resp & sent & E & Hs & Hq & Hd).
  exists resp, sent. split; [exact E|]. split; [exact Hs|].
  split; [exact Hq|]. apply Hd. reflexivity.
Defined.

(** X11.  A list_tables success envelope describes the result rows in
    order: as many descriptors as rows, [tableCount] their number, [found]
    true exactly when there is one, and the descriptor at index [i]
    carries position [i + 1], the row's name and type, and the full name
    "<schema>.<name>" under the envelope's schema. *)
Theorem X11_list_tables_descriptors (self : Server.t) (a : Args.t)
    (s : PoolState) (r : Result TableRow) :
  connecting (pool self) = None ->
  tables (pool self)
    (listTablesStatement (targetSchema self a) (Args.pattern a)) = inr r ->
  exists resp,
    fst (handleListTables self (Some a) s) = Normal (ListSuccess resp)
    /\ ListOk.schema resp = targetSchema self a
    /\ length (ListOk.tables resp) = length (rows r)
    /\ ListOk.tableCount (ListOk.metadata resp) = length (rows r)
    /\ (ListOk.found (ListOk.metadata resp) = true <-> rows r <> [])
    /\ forall i row,
         nth_error (rows r) i = Some row ->
         exists t,
           nth_error (ListOk.tables resp) i = Some t
           /\ ListOk.position t = i + 1
           /\ ListOk.name t = table_name row
           /\ ListOk.type t = table_type row
           /\ ListOk.fullName t
              = ListOk.schema resp ++ "." ++ table_name row.
Proof.
  intros Hc Hr. run_handler. rewrite Hc. simpl. rewrite Hr. simpl.
  eexists. split; [reflexivity|]. simpl.
  split; [reflexivity|]. split; [apply length_mapi_from|].
  split; [reflexivity|]. split.
  { destruct (rows r); simpl; split; intros H;
      try discriminate; try reflexivity. now elim H. }
  intros i row Hi. exists (tableOf (targetSchema self a) row i).
  split; [rewrite nth_error_mapi, Hi; reflexivity|]. repeat split.
Qed.

Lemma X11_witness :
  exists resp,
    fst (handleListTables (Scenario.server Scenario.pool)
           (Some (Scenario.listArgs "public" Undefined)) idle)
    = Normal (ListSuccess resp)
    /\ map ListOk.fullName (ListOk.tables resp) = ["public.users"].
Proof.
  destruct (X11_list_tables_descriptors (Scenario.server Scenario.pool)
              (Scenario.listArgs "public" Undefined) idle
              (Scenario.selected [Scenario.usersTable]) eq_refl eq_refl)
    as (resp & E & _).
  exists resp. split; [exact E|].
  vm_compute in E. injection E as <-. reflexivity.
Defined.

(** X12.  A describe_table success envelope copies each row's name, base
    type, default and the three constraint values unchanged and in order,
    and names the table "<schema>.<tableName>". *)
Theorem X12_describe_copies_rows (self : Server.t) (a : Args.t)
    (s : PoolState) (r : Result ColumnRow) :
  connecting (pool self) = None ->
  columns (pool self)
    {| text := describeTableQuery;
       values := [Val (targetSchema self a); Args.tableName a] |} = inr r ->
  exists resp,
    fst (handleDescribeTable self (Some a) s) = Normal (DescribeSuccess resp)
    /\ map DescribeOk.position (DescribeOk.columns resp)
       = seq 1 (length (rows r))
    /\ map DescribeOk.columnName (DescribeOk.columns resp)
       = map column_name (rows r)
    /\ map DescribeOk.dataType (DescribeOk.columns resp)
       = map data_type (rows r)
    /\ map DescribeOk.defaultValue (DescribeOk.columns resp)
       = map column_default (rows r)
    /\ map (fun c => DescribeOk.characterMaximumLength
                       (DescribeOk.constraints c))
           (DescribeOk.columns resp)
       = map character_maximum_length (rows r)
    /\ map (fun c => DescribeOk.numericPrecision (DescribeOk.constraints c))
           (DescribeOk.columns resp)
       = map numeric_precision (rows r)
    /\ map (fun c => DescribeOk.numericScale (DescribeOk.constraints c))
           (DescribeOk.columns resp)
       = map numeric_scale (rows r)
    /\ DescribeOk.name (DescribeOk.table resp) = Args.tableName a
    /\ DescribeOk.schema (DescribeOk.table resp) = targetSchema self a
    /\ forall t, Args.tableName a = Val t ->
         DescribeOk.fullName (DescribeOk.table resp)
         = targetSchema self a ++ "." ++ t.
Proof.
  intros Hc Hr. eexists. split.
  { apply handleDescribeTable_success; eassumption. }
  cbn [DescribeOk.columns DescribeOk.table DescribeOk.name DescribeOk.schema
       DescribeOk.fullName].
  assert (M : forall {B} (g : DescribeOk.Column -> B) (h : ColumnRow -> B),
            (forall row i, g (columnOf row i) = h row) ->
            forall l k, map g (mapi_from k columnOf l) = map h l).
  { intros B g h H l. induction l as [|x l IH]; intros k; simpl;
      [reflexivity|]. now rewrite H, IH. }
  split.
  { unfold mapi. generalize 0 as k. induction (rows r) as [|x l IH];
      intros k; simpl; [reflexivity|].
    rewrite IH. now rewrite Nat.add_1_r. }
  unfold mapi. repeat (split; [apply M; reflexivity|]).
  split; [reflexivity|]. split; [reflexivity|].
  intros t Ht. now rewrite Ht.
Qed.

Lemma X12_witness :
  exists resp,
    fst (handleDescribeTable (Scenario.server Scenario.pool)
           (Some (Scenario.describeArgs "users" "public")) idle)
    = Normal (DescribeSuccess resp)
    /\ map DescribeOk.columnName (DescribeOk.columns resp)
       = ["id"; "name"; "created_at"]
    /\ DescribeOk.fullName (DescribeOk.table resp) = "public.users".
Proof.
  destruct (X12_describe_copies_rows (Scenario.server Scenario.pool)
              (Scenario.describeArgs "users" "public") idle
              (Scenario.selected Scenario.usersColumns) eq_refl eq_refl)
    as (resp & E & _ & Hn & _ & _ & _ & _ & _ & _ & _ & Hf).
  exists resp. split; [exact E|]. split; [exact Hn|].
  exact (Hf "users" eq_refl).
Defined.

(** X13.  The [success] flag of the returned envelope is true exactly when
    the pool handed out a client and the database answered the statement
    (for the query tool: and the [query] key holds a text). *)
Theorem X13_success_flag (self : Server.t) (a : Args.t) (s : PoolState) :
  (exists resp,
     fst (handleQuery self (Some a) s) = Normal resp
     /\ (Envelope.success resp = true
         <-> connecting (pool self) = None
             /\ exists q r,
                  Args.query a = Val q
                  /\ freeform (pool self)
                       {| text := finalQuery q (limitRows self a);
                          values := [] |} = inr r))
  /\ (exists resp,
        fst (handleDescribeTable self (Some a) s) = Normal resp
        /\ (Envelope.success resp = true
            <-> connecting (pool self) = None
                /\ exists r,
                     columns (pool self)
                       {| text := describeTableQuery;
                          values := [Val (targetSchema self a);
                                     Args.tableName a] |} = inr r))
  /\ (exists resp,
        fst (handleListTables self (Some a) s) = Normal resp
        /\ (Envelope.success resp = true
            <-> connecting (pool self) = None
                /\ exists r,
                     tables (pool self)
                       (listTablesStatement (targetSchema self a)
                          (Args.pattern a)) = inr r)).
Proof.
  run_handler. destruct (connecting (pool self)) as [e|]; simpl.
  - repeat split; eexists; (split; [reflexivity|]); simpl;
      (split; [discriminate|intros [H _]; discriminate]).
  - repeat split.
    + destruct (Args.query a) as [| |q]; simpl.
      * eexists; split; [reflexivity|]; simpl.
        split; [discriminate|intros (_ & q & r & H & _); discriminate].
      * eexists; split; [reflexivity|]; simpl.
        split; [discriminate|intros (_ & q & r & H & _); discriminate].
      * destruct (freeform _ _) as [e|r] eqn:E; simpl;
          (eexists; split; [reflexivity|]); simpl; split.
        -- discriminate.
        -- intros (_ & q' & r & H & H'). injection H as <-.
           rewrite E in H'. discriminate.
        -- intros _. split; [reflexivity|]. exists q, r. auto.
        -- reflexivity.
    + destruct (columns _ _) as [e|r] eqn:E; simpl;
        (eexists; split; [reflexivity|]); simpl; split;
        try discriminate; try reflexivity.
      * intros (_ & r & H). discriminate.
      * intros _. split; [reflexivity|]. now exists r.
    + destruct (tables _ _) as [e|r] eqn:E; simpl;
        (eexists; split; [reflexivity|]); simpl; split;
        try discriminate; try reflexivity.
      * intros (_ & r & H). discriminate.
      * intros _. split; [reflexivity|]. now exists r.
Qed.

(** ** The constructor *)

Lemma or_else_nonempty (x : slot string) (d : string) :
  d <> "" -> or_else x d <> "".
Proof.
  intros Hd. unfold or_else, truthy, truthy_string.
  destruct x as [| |v]; try exact Hd.
  destruct (String.eqb_spec v ""); [exact Hd|assumption].
Qed.

Lemma nan_or_nonzero (n : number) (d : Z) : d <> 0%Z -> nan_or n d <> 0%Z.
Proof.
  intros Hd. unfold nan_or, truthy, truthy_number.
  destruct n as [|k]; [exact Hd|].
  destruct (Z.eqb_spec k 0); [exact Hd|assumption].
Qed.

(** X14.  Whatever the environment holds, the constructor never
    configures an empty default schema, a zero row limit or timeout, an
    empty host, database or user, or port 0: an empty, zero or
    non-numeric variable falls back to the built-in default. *)
Theorem X14_constructor_fallbacks (env : ProcessEnv)
    (cenv : Startup.ConnectionEnv) :
  schema (defaultConfig env) <> ""
  /\ maxRows (defaultConfig env) <> 0%Z
  /\ timeout (defaultConfig env) <> 0%Z
  /\ Startup.host (Startup.poolOptions cenv) <> ""
  /\ Startup.port (Startup.poolOptions cenv) <> 0%Z
  /\ Startup.database (Startup.poolOptions cenv) <> ""
  /\ Startup.user (Startup.poolOptions cenv) <> "".
Proof.
  unfold defaultConfig, Startup.poolOptions. simpl.
  repeat split;
    first [apply or_else_nonempty; discriminate
          |apply nan_or_nonzero; discriminate].
Qed.

(** X15.  On a server configured by the constructor, no request has an
    effective row limit of 0 or an empty effective schema: the [> 0] test
    of the query handler can only fail on a negative limit, and the schema
    bound as [$1] is never the empty string. *)
Theorem X15_effective_limit_and_schema (env : ProcessEnv) (p : Pool)
    (a : Args.t) :
  let self := {| config := defaultConfig env; pool := p |} in
  limitRows self a <> 0%Z
  /\ targetSchema self a <> ""
  /\ ((0 <? limitRows self a)%Z = false -> (limitRows self a < 0)%Z).
Proof.
  cbv zeta.
  assert (HL : limitRows {| config := defaultConfig env; pool := p |} a
               <> 0%Z) by apply limitRows_nonzero.
  split; [exact HL|]. split.
  - unfold targetSchema. apply or_else_nonempty.
    cbn [config defaultConfig schema]. apply or_else_nonempty. discriminate.
  - intros H. apply Z.ltb_ge in H. lia.
Qed.

(** ** Reading numbers from the environment *)

Lemma digits_pos (d : Decimal.uint) :
  forall acc : positive,
    digits 10 (NilEmpty.string_of_uint d) (Int (Zpos acc))
    = Int (Zpos (Pos.of_uint_acc d acc)).
Proof.
  induction d; intros acc;
    cbn [NilEmpty.string_of_uint digits Pos.of_uint_acc];
    [reflexivity|..];
    match goal with
    | |- context [digitOf 10 ?c] =>
        let v := eval vm_compute in (digitOf 10 c) in
        change (digitOf 10 c) with v
    end;
    rewrite <- IHd; f_equal; f_equal; lia.
Qed.

Lemma digits_zero (d : Decimal.uint) :
  digits 10 (NilEmpty.string_of_uint d) (Int 0)
  = Int (Z.of_N (Pos.of_uint d)).
Proof.
  induction d; cbn [NilEmpty.string_of_uint digits Pos.of_uint];
    [reflexivity|..];
    match goal with
    | |- context [digitOf 10 ?c] =>
        let v := eval vm_compute in (digitOf 10 c) in
        change (digitOf 10 c) with v
    end;
    cbn [Z.mul Z.add]; first [exact IHd | apply digits_pos].
Qed.

Lemma digits_start (d : Decimal.uint) :
  d <> Decimal.Nil ->
  digits 10 (NilEmpty.string_of_uint d) NaN
  = digits 10 (NilEmpty.string_of_uint d) (Int 0).
Proof.
  destruct d; intros H; [now elim H|..]; reflexivity.
Qed.

(** A decimal numeral is read back by [parseInt] as the run of its
    digits. *)
Lemma parseInt_numeral (d : Decimal.uint) :
  d <> Decimal.Nil ->
  parseInt (Val (NilEmpty.string_of_uint d))
  = Int (Z.of_N (Pos.of_uint d))
  /\ parseInt (Val (String "-" (NilEmpty.string_of_uint d)))
     = Int (- Z.of_N (Pos.of_uint d)).
Proof.
  intros H.
  assert (E : digits 10 (NilEmpty.string_of_uint d) NaN
              = Int (Z.of_N (Pos.of_uint d)))
    by (rewrite digits_start by exact H; apply digits_zero).
  assert (W : forall c r,
            isWhiteSpace c = false ->
            trimStart (String c r) = String c r)
    by (intros c r Hw; cbn [trimStart]; now rewrite Hw).
  destruct d as [|d|d|d|d|d|d|d|d|d|d]; [now elim H|..];
    try (split; unfold parseInt;
         cbn [toString NilEmpty.string_of_uint] in *;
         rewrite W by reflexivity; cbv beta iota zeta;
         rewrite E; reflexivity).
  destruct d; split;
    first [reflexivity
          |unfold parseInt; cbn [toString NilEmpty.string_of_uint] in *;
           rewrite W by reflexivity; cbv beta iota zeta;
           rewrite E; reflexivity].
Qed.

Lemma parseInt_numberToString (n : Z) :
  parseInt (Val (numberToString n)) = Int n.
Proof.
  unfold numberToString. destruct n as [|p|p].
  - reflexivity.
  - cbn [Z.to_int NilZero.string_of_int].
    assert (N : Pos.to_uint p <> Decimal.Nil)
      by apply DecimalPos.Unsigned.to_uint_nonnil.
    replace (NilZero.string_of_uint (Pos.to_uint p))
      with (NilEmpty.string_of_uint (Pos.to_uint p))
      by (unfold NilZero.string_of_uint;
          destruct (Pos.to_uint p); [now elim N|..]; reflexivity).
    rewrite (proj1 (parseInt_numeral _ N)).
    now rewrite DecimalPos.Unsigned.of_to.
  - cbn [Z.to_int NilZero.string_of_int].
    assert (N : Pos.to_uint p <> Decimal.Nil)
      by apply DecimalPos.Unsigned.to_uint_nonnil.
    replace (NilZero.string_of_uint (Pos.to_uint p))
      with (NilEmpty.string_of_uint (Pos.to_uint p))
      by (unfold NilZero.string_of_uint;
          destruct (Pos.to_uint p); [now elim N|..]; reflexivity).
    rewrite (proj2 (parseInt_numeral _ N)).
    now rewrite DecimalPos.Unsigned.of_to.
Qed.

(** X16.  A row limit written in the environment as the decimal numeral
    of an integer (of magnitude below 2^53, where numbers are exact) is the
    configured default, except 0, which falls back to 100. *)
Theorem X16_max_rows_from_environment (env : ProcessEnv) (n : Z) :
  (Z.abs n < 2 ^ 53)%Z ->
  POSTGRES_MAX_ROWS env = Val (numberToString n) ->
  maxRows (defaultConfig env) = if (n =? 0)%Z then 100%Z else n.
Proof.
  intros _ E. unfold defaultConfig. cbn [maxRows].
  rewrite E, parseInt_numberToString.
  unfold nan_or, truthy, truthy_number. now destruct (n =? 0)%Z.
Qed.

Lemma X16_witness :
  maxRows (defaultConfig
             {| POSTGRES_DEFAULT_SCHEMA := Undefined;
                POSTGRES_DEFAULT_CONTEXT := Undefined;
                POSTGRES_MAX_ROWS := Val "250";
                POSTGRES_TIMEOUT := Undefined |})
  = 250%Z.
Proof.
  exact (X16_max_rows_from_environment
           {| POSTGRES_DEFAULT_SCHEMA := Undefined;
              POSTGRES_DEFAULT_CONTEXT := Undefined;
              POSTGRES_MAX_ROWS := Val "250";
              POSTGRES_TIMEOUT := Undefined |}
           250%Z eq_refl eq_refl).
Defined.

(** ** Letter case and surrounding white space *)

Lemma upperChar_idempotent (c : ascii) : upperChar (upperChar c) = upperChar c.
Proof. destruct c as [[] [] [] [] [] [] [] []]; reflexivity. Qed.

Lemma isWhiteSpace_upperChar (c : ascii) :
  isWhiteSpace (upperChar c) = isWhiteSpace c.
Proof. destruct c as [[] [] [] [] [] [] [] []]; reflexivity. Qed.

Lemma toUpperCase_idempotent (s : string) :
  toUpperCase (toUpperCase s) = toUpperCase s.
Proof.
  induction s as [|c s IH]; simpl; [reflexivity|].
  now rewrite upperChar_idempotent, IH.
Qed.

Lemma toUpperCase_empty (s : string) : (toUpperCase s =? "") = (s =? "").
Proof. now destruct s. Qed.

Lemma trimStart_toUpperCase (s : string) :
  trimStart (toUpperCase s) = toUpperCase (trimStart s).
Proof.
  induction s as [|c s IH]; [reflexivity|].
  cbn [toUpperCase trimStart]. rewrite isWhiteSpace_upperChar.
  destruct (isWhiteSpace c); [exact IH|reflexivity].
Qed.

Lemma trimEnd_toUpperCase (s : string) :
  trimEnd (toUpperCase s) = toUpperCase (trimEnd s).
Proof.
  induction s as [|c s IH]; [reflexivity|].
  cbn [toUpperCase trimEnd].
  rewrite isWhiteSpace_upperChar, IH, toUpperCase_empty.
  now destruct (isWhiteSpace c && (trimEnd s =? ""))%bool.
Qed.

Lemma trim_toUpperCase (s : string) :
  trim (toUpperCase s) = toUpperCase (trim s).
Proof. unfold trim. now rewrite trimStart_toUpperCase, trimEnd_toUpperCase. Qed.

Lemma trimEnd_idempotent (s : string) : trimEnd (trimEnd s) = trimEnd s.
Proof.
  induction s as [|c s IH]; [reflexivity|].
  cbn [trimEnd].
  destruct (isWhiteSpace c && (trimEnd s =? ""))%bool eqn:E; [reflexivity|].
  cbn [trimEnd]. rewrite IH, E. reflexivity.
Qed.

Lemma trimStart_trimEnd (s : string) :
  trimStart s = s -> trimStart (trimEnd s) = trimEnd s.
Proof.
  destruct s as [|c s]; [reflexivity|].
  cbn [trimStart trimEnd]. destruct (isWhiteSpace c) eqn:W.
  - intros E. exfalso.
    assert (L : forall t, String.length (trimStart t) <= String.length t).
    { intros t. induction t as [|x t IH]; simpl; [lia|].
      destruct (isWhiteSpace x); simpl; lia. }
    specialize (L s). rewrite E in L. simpl in L. lia.
  - intros _. cbn [andb trimStart]. now rewrite W.
Qed.

Lemma trimStart_idempotent (s : string) : trimStart (trimStart s) = trimStart s.
Proof.
  induction s as [|c s IH]; [reflexivity|].
  cbn [trimStart]. destruct (isWhiteSpace c) eqn:W; [exact IH|].
  cbn [trimStart]. now rewrite W.
Qed.

Lemma trim_idempotent (s : string) : trim (trim s) = trim s.
Proof.
  unfold trim.
  rewrite (trimStart_trimEnd (trimStart s) (trimStart_idempotent s)).
  apply trimEnd_idempotent.
Qed.

(** X17.  Whether the handler appends a LIMIT does not depend on the
    letter case of the query text, nor on white space around it. *)
Theorem X17_limit_test_ignores_case_and_margins (q : string) (L : Z) :
  needsLimit (toUpperCase q) L = needsLimit q L
  /\ needsLimit (trim q) L = needsLimit q L.
Proof.
  split.
  - unfold needsLimit.
    now rewrite trim_toUpperCase, !toUpperCase_idempotent.
  - rewrite !needsLimit_trimmedUpper. cbv zeta.
    now rewrite trim_idempotent.
Qed.
